(** * Ajiponzu Utility Launcher: the front-end handlers, embedded and verified

    The TypeScript sources are React components whose handlers read and write
    component state, talk to the native backend through [invoke], and report
    failures with [console.error] and [alert].  They are embedded here as
    computations in a small state / exception / trace monad, one Rocq
    definition per source function, under the source's names.

    - [Settings]  : src/components/Settings.tsx
    - [App]       : App.tsx with the [runningApps] set
    - [AppV1]     : App.tsx before [runningApps] was introduced
    - [AppV0]     : the first App.tsx, with [hideWindow] only
    - [Supervisor]: the backend launch contract, which is not part of the
                    TypeScript sources. *)

From stdpp Require Import base gmap sets list strings.
From Stdlib Require Import ZArith Bool.

Open Scope string_scope.
Open Scope list_scope.

(** ** JavaScript values crossing the [invoke] boundary *)

Inductive value : Type :=
| VUndefined
| VString (s : string)
| VNumber (n : Z)
| VBool (b : bool).

(** An object literal [{ k1: v1, k2: v2 }], keys in source order. *)
Definition payload : Type := list (string * value).

(** Truthiness of the JavaScript types the handlers test. *)
Definition truthy_string (s : string) : bool :=
  match s with
  | EmptyString => false
  | String _ _ => true
  end.

Definition truthy_number (n : Z) : bool := negb (n =? 0)%Z.

Definition truthy_bool (b : bool) : bool := b.

(** A property typed [T] that the object may lack ([undefined] or [null])
    is an [option T]; it is truthy when present with a truthy content. *)
Definition truthy_opt {A : Type} (truthy : A -> bool) (o : option A) : bool :=
  match o with
  | Some a => truthy a
  | None => false
  end.

(** [o || d] where [o] has type [T | undefined] and [d : T]. *)
Definition or_default {A : Type} (truthy : A -> bool) (o : option A) (d : A) : A :=
  match o with
  | Some a => if truthy a then a else d
  | None => d
  end.

Definition opt_value {A : Type} (inj : A -> value) (o : option A) : value :=
  match o with
  | Some a => inj a
  | None => VUndefined
  end.

(** ** types.ts *)

(** The interface declares all eight properties.  The handlers read [id],
    [name] and [path] as they are, but guard the other five with [||]: a
    record coming from the backend may lack them, so they are options here. *)

Record RegisteredApp : Type := mkRegisteredApp {
  id : string;
  name : string;
  path : string;
  arguments : option string;
  description : option string;
  delay : option Z;
  prevent_duplicate : option bool;
  auto_start : option bool
}.

(** ** The handler monad *)

(** What the backend answers to one [invoke]: the promise resolves with a
    result or rejects with an error (rendered as its message). *)
Inductive outcome (R : Type) : Type :=
| Resolved (r : R)
| Rejected (err : string).
Arguments Resolved {R} r.
Arguments Rejected {R} err.

(** The type argument of [invoke<T>]. *)
Inductive rty : Type := TVoid | TApps | TPath.

Definition rsem (t : rty) : Type :=
  match t with
  | TVoid => unit
  | TApps => list RegisteredApp
  | TPath => option string
  end.

(** Observable effects of a handler, in program order.  An [Invoke] carries
    the command, its argument object and, when the backend rejected the call,
    the error. *)
Inductive effect : Type :=
| Invoke (cmd : string) (args : payload) (failure : option string)
| ConsoleLog (msg : string)
| ConsoleError (msg : string) (err : string)
| Alert (msg : string)
| Confirm (msg : string) (answer : bool)
| UnhandledRejection (err : string).

(** The environment of a handler: the backend behind [invoke] and the user
    behind [confirm].  The backend answers by command and argument object; no
    handler below issues the same call twice in one run, so every combination
    of outcomes of its calls is some backend. *)
Record Env : Type := mkEnv {
  backend : forall t : rty, string -> payload -> outcome (rsem t);
  confirm_answer : string -> bool
}.

Inductive completion (A : Type) : Type :=
| Normal (a : A)
| Throw (err : string).
Arguments Normal {A} a.
Arguments Throw {A} err.

Definition M (St A : Type) : Type := St -> completion A * St * list effect.

Definition run {St A : Type} (m : M St A) (st : St) : completion A * St * list effect := m st.
Definition result_of {St A : Type} (m : M St A) (st : St) : completion A := (m st).1.1.
Definition state_of {St A : Type} (m : M St A) (st : St) : St := (m st).1.2.
Definition trace_of {St A : Type} (m : M St A) (st : St) : list effect := (m st).2.

Section Monad.
Context {St : Type}.

Definition ret {A : Type} (a : A) : M St A := fun st => (Normal a, st, []).

Definition bind {A B : Type} (m : M St A) (k : A -> M St B) : M St B :=
  fun st =>
    match m st with
    | (Normal a, st1, tr1) =>
        match k a st1 with
        | (c, st2, tr2) => (c, st2, tr1 ++ tr2)
        end
    | (Throw err, st1, tr1) => (Throw err, st1, tr1)
    end.

Definition get : M St St := fun st => (Normal st, st, []).

Definition modify (f : St -> St) : M St unit := fun st => (Normal tt, f st, []).

Definition emit (e : effect) : M St unit := fun st => (Normal tt, st, [e]).

(** [try { body } catch (error) { handler }] *)
Definition try_catch (body : M St unit) (handler : string -> M St unit) : M St unit :=
  fun st =>
    match body st with
    | (Normal a, st1, tr1) => (Normal a, st1, tr1)
    | (Throw err, st1, tr1) =>
        match handler err st1 with
        | (c, st2, tr2) => (c, st2, tr1 ++ tr2)
        end
    end.

(** [try { body } catch (error) { handler } finally { final }] *)
Definition try_catch_finally (body : M St unit) (handler : string -> M St unit)
    (final : M St unit) : M St unit :=
  fun st =>
    match try_catch body handler st with
    | (c, st1, tr1) =>
        match final st1 with
        | (Normal _, st2, tr2) => (c, st2, tr1 ++ tr2)
        | (Throw err, st2, tr2) => (Throw err, st2, tr1 ++ tr2)
        end
    end.

(** A call of an async function whose promise is dropped (no [await]): the
    callee runs, but a rejection never reaches the caller's [catch]; it
    surfaces as an unhandled rejection. *)
Definition detached (m : M St unit) : M St unit :=
  fun st =>
    match m st with
    | (Normal _, st1, tr1) => (Normal tt, st1, tr1)
    | (Throw err, st1, tr1) => (Normal tt, st1, tr1 ++ [UnhandledRejection err])
    end.

(** [await invoke<T>(cmd, args)] *)
Definition invoke (env : Env) (t : rty) (cmd : string) (args : payload) : M St (rsem t) :=
  fun st =>
    match backend env t cmd args with
    | Resolved r => (Normal r, st, [Invoke cmd args None])
    | Rejected err => (Throw err, st, [Invoke cmd args (Some err)])
    end.

Definition console_log (msg : string) : M St unit := emit (ConsoleLog msg).
Definition console_error (msg err : string) : M St unit := emit (ConsoleError msg err).
Definition alert (msg : string) : M St unit := emit (Alert msg).

Definition confirm (env : Env) (msg : string) : M St bool :=
  fun st => let b := confirm_answer env msg in (Normal b, st, [Confirm msg b]).
End Monad.

Declare Scope js_scope.
Delimit Scope js_scope with js.
Notation "'let*' x ':=' m 'in' k" := (bind m (fun x => k))
  (at level 10, x name, m at level 100, k at level 200) : js_scope.
Notation "m '>>' k" := (bind m (fun _ => k))
  (at level 100, k at level 200, right associativity) : js_scope.

(** The backend call an effect stands for, if it is one. *)
Definition invoked (e : effect) : option (string * payload) :=
  match e with
  | Invoke cmd args _ => Some (cmd, args)
  | _ => None
  end.

(** The calls made, as (command, arguments), in order. *)
Definition calls (tr : list effect) : list (string * payload) := omap invoked tr.

(** ** JSX children and the short-circuit [&&] *)

(** A child of a JSX element, as far as the conditional slots of the cards
    need it: a primitive value, or an element with a class name and the
    pieces of its text. *)
Inductive node : Type :=
| NValue (v : value)
| NElement (tag className : string) (children : list value).

Definition truthy_value (v : value) : bool :=
  match v with
  | VUndefined => false
  | VString s => truthy_string s
  | VNumber n => truthy_number n
  | VBool b => truthy_bool b
  end.

Definition truthy_node (n : node) : bool :=
  match n with
  | NValue v => truthy_value v
  | NElement _ _ _ => true
  end.

(** [a && b]: the left operand when it is falsy, the right one otherwise. *)
Definition js_and (a b : node) : node := if truthy_node a then b else a.

(** [v > 0] on a number that may be missing; [undefined > 0] is false. *)
Definition gt_zero (o : option Z) : bool :=
  match o with
  | Some n => (0 <? n)%Z
  | None => false
  end.

(** ** src/components/Settings.tsx *)

Module Settings.

Record FormData : Type := mkFormData {
  fd_name : string;
  fd_path : string;
  fd_arguments : string;
  fd_description : string;
  fd_delay : Z;
  fd_preventDuplicate : bool;
  fd_autoStart : bool
}.

(** The component's [useState] cells. *)
Record State : Type := mkState {
  registeredApps : list RegisteredApp;
  isLoading : bool;
  showAddForm : bool;
  editingApp : option RegisteredApp;
  formData : FormData
}.

Definition initial : State :=
  mkState [] true false None (mkFormData "" "" "" "" 0 false false).

Definition setRegisteredApps (apps : list RegisteredApp) : M State unit :=
  modify (fun st => mkState apps (isLoading st) (showAddForm st) (editingApp st) (formData st)).

Definition setIsLoading (b : bool) : M State unit :=
  modify (fun st => mkState (registeredApps st) b (showAddForm st) (editingApp st) (formData st)).

Definition setShowAddForm (b : bool) : M State unit :=
  modify (fun st => mkState (registeredApps st) (isLoading st) b (editingApp st) (formData st)).

Definition setEditingApp (a : option RegisteredApp) : M State unit :=
  modify (fun st => mkState (registeredApps st) (isLoading st) (showAddForm st) a (formData st)).

Definition setFormData (fd : FormData) : M State unit :=
  modify (fun st => mkState (registeredApps st) (isLoading st) (showAddForm st) (editingApp st) fd).

Section Handlers.
Variable env : Env.

Local Open Scope js_scope.

Definition loadRegisteredApps : M State unit :=
  setIsLoading true >>
  try_catch_finally
    (let* apps := invoke env TApps "get_registered_apps" [] in
     setRegisteredApps apps)
    (fun error => console_error "Failed to load registered apps:" error)
    (setIsLoading false).

Definition resetForm : M State unit :=
  setFormData (mkFormData "" "" "" "" 0 false false) >>
  setShowAddForm false >>
  setEditingApp None.

Definition handleAdd : M State unit :=
  console_log "Add button clicked" >>
  resetForm >>
  setShowAddForm true.

Definition handleEdit (app : RegisteredApp) : M State unit :=
  setFormData
    (mkFormData
       (name app)
       (path app)
       (or_default truthy_string (arguments app) "")
       (or_default truthy_string (description app) "")
       (or_default truthy_number (delay app) 0%Z)
       (or_default truthy_bool (prevent_duplicate app) false)
       (or_default truthy_bool (auto_start app) false)) >>
  setEditingApp (Some app) >>
  setShowAddForm true.

Definition handleSave : M State unit :=
  let* st := get in
  let formData := formData st in
  let editingApp := editingApp st in
  if negb (truthy_string (fd_name formData)) || negb (truthy_string (fd_path formData)) then
    alert "名前とパスは必須です"
  else
    try_catch
      (match editingApp with
       | Some editingApp =>
           invoke env TVoid "update_registered_app"
             [("id", VString (id editingApp));
              ("name", VString (fd_name formData));
              ("path", VString (fd_path formData));
              ("arguments", VString (fd_arguments formData));
              ("description", VString (fd_description formData));
              ("delay", VNumber (fd_delay formData));
              ("preventDuplicate", VBool (fd_preventDuplicate formData));
              ("autoStart", VBool (fd_autoStart formData))]
       | None =>
           invoke env TVoid "add_registered_app"
             [("name", VString (fd_name formData));
              ("path", VString (fd_path formData));
              ("arguments", VString (fd_arguments formData));
              ("description", VString (fd_description formData));
              ("delay", VNumber (fd_delay formData));
              ("preventDuplicate", VBool (fd_preventDuplicate formData));
              ("autoStart", VBool (fd_autoStart formData))]
       end >>
       resetForm >>
       detached loadRegisteredApps)
      (fun error =>
         console_error "Failed to save app:" error >>
         alert "保存に失敗しました").

Definition handleDelete (app : RegisteredApp) : M State unit :=
  let* yes := confirm env ("「" +:+ name app +:+ "」を削除しますか？") in
  if yes then
    try_catch
      (invoke env TVoid "remove_registered_app" [("id", VString (id app))] >>
       detached loadRegisteredApps)
      (fun error =>
         console_error "Failed to delete app:" error >>
         alert "削除に失敗しました")
  else ret tt.

Definition selectFile : M State unit :=
  let* st := get in
  let formData := formData st in
  try_catch
    (let* path := invoke env TPath "open_file_dialog" [] in
     match path with
     | Some path =>
         if truthy_string path then
           setFormData
             (mkFormData (fd_name formData) path (fd_arguments formData)
                (fd_description formData) (fd_delay formData)
                (fd_preventDuplicate formData) (fd_autoStart formData))
         else ret tt
     | None => ret tt
     end)
    (fun error => console_error "Failed to select file:" error).
End Handlers.

(** The [onChange] handlers of the form inputs and the other buttons, as the
    events the user can fire on the panel. *)
Inductive event : Type :=
| ChangeName (v : string)
| ChangePath (v : string)
| ChangeArguments (v : string)
| ChangeDescription (v : string)
| ChangeDelay (v : Z)
| ChangePreventDuplicate (v : bool)
| ChangeAutoStart (v : bool)
| ClickSelectFile.

Definition onChange (env : Env) (e : event) : M State unit :=
  bind get (fun st =>
    let fd := formData st in
    match e with
    | ChangeName v =>
        setFormData (mkFormData v (fd_path fd) (fd_arguments fd) (fd_description fd)
                       (fd_delay fd) (fd_preventDuplicate fd) (fd_autoStart fd))
    | ChangePath v =>
        setFormData (mkFormData (fd_name fd) v (fd_arguments fd) (fd_description fd)
                       (fd_delay fd) (fd_preventDuplicate fd) (fd_autoStart fd))
    | ChangeArguments v =>
        setFormData (mkFormData (fd_name fd) (fd_path fd) v (fd_description fd)
                       (fd_delay fd) (fd_preventDuplicate fd) (fd_autoStart fd))
    | ChangeDescription v =>
        setFormData (mkFormData (fd_name fd) (fd_path fd) (fd_arguments fd) v
                       (fd_delay fd) (fd_preventDuplicate fd) (fd_autoStart fd))
    | ChangeDelay v =>
        setFormData (mkFormData (fd_name fd) (fd_path fd) (fd_arguments fd) (fd_description fd)
                       v (fd_preventDuplicate fd) (fd_autoStart fd))
    | ChangePreventDuplicate v =>
        setFormData (mkFormData (fd_name fd) (fd_path fd) (fd_arguments fd) (fd_description fd)
                       (fd_delay fd) v (fd_autoStart fd))
    | ChangeAutoStart v =>
        setFormData (mkFormData (fd_name fd) (fd_path fd) (fd_arguments fd) (fd_description fd)
                       (fd_delay fd) (fd_preventDuplicate fd) v)
    | ClickSelectFile => selectFile env
    end).

(** The state after the user fires a sequence of form events. *)
Fixpoint edits (env : Env) (es : list event) (st : State) : State :=
  match es with
  | [] => st
  | e :: es' => edits env es' (state_of (onChange env e) st)
  end.

(** The heading of the form and the label of its save button. *)
Definition formTitle (st : State) : string :=
  match editingApp st with
  | Some _ => "アプリケーション編集"
  | None => "アプリケーション追加"
  end.

Definition saveButtonLabel (st : State) : string :=
  match editingApp st with
  | Some _ => "更新"
  | None => "追加"
  end.

(** The delay slot of an app card:
    [app.delay && app.delay > 0 && <span className="delay">...</span>]. *)
Definition delayBadge (app : RegisteredApp) : node :=
  js_and
    (js_and (NValue (opt_value VNumber (delay app))) (NValue (VBool (gt_zero (delay app)))))
    (NElement "span" "delay"
       [VString "遅延: "; opt_value VNumber (delay app); VString "秒"]).

End Settings.

(** ** App.tsx, with the [runningApps] set *)

Module App.

Record State : Type := mkState {
  showSettings : bool;
  registeredApps : list RegisteredApp;
  runningApps : gset string
}.

Definition initial : State := mkState false [] ∅.

Definition setShowSettings (b : bool) : M State unit :=
  modify (fun st => mkState b (registeredApps st) (runningApps st)).

Definition setRegisteredApps (apps : list RegisteredApp) : M State unit :=
  modify (fun st => mkState (showSettings st) apps (runningApps st)).

(** [setRunningApps(value)] and [setRunningApps((prev) => ...)]. *)
Definition setRunningApps (s : gset string) : M State unit :=
  modify (fun st => mkState (showSettings st) (registeredApps st) s).

Definition updateRunningApps (f : gset string -> gset string) : M State unit :=
  modify (fun st => mkState (showSettings st) (registeredApps st) (f (runningApps st))).

Section Handlers.
Variable env : Env.

Local Open Scope js_scope.

Definition loadRegisteredApps : M State unit :=
  try_catch
    (let* apps := invoke env TApps "get_registered_apps" [] in
     setRegisteredApps apps)
    (fun error => console_error "Failed to load registered apps:" error).

Definition loadRunningApps : M State unit :=
  try_catch
    (let* apps := invoke env TApps "get_registered_apps" [] in
     let autoStartAppIds :=
       List.map (fun app => id app)
         (List.filter (fun app => truthy_opt truthy_bool (auto_start app)) apps) in
     let allRunningIds := elements (list_to_set (C := gset string) autoStartAppIds) in
     setRunningApps (list_to_set allRunningIds))
    (fun error => console_error "Failed to load running apps:" error).

Definition handleLaunchApp (app : RegisteredApp) : M State unit :=
  try_catch
    (invoke env TVoid "launch_application"
       [("appId", VString (id app));
        ("path", VString (path app));
        ("arguments", opt_value VString (arguments app))] >>
     updateRunningApps (fun prev => list_to_set (elements prev ++ [id app])))
    (fun error =>
       console_error "Failed to launch application:" error >>
       alert ("アプリケーションの起動に失敗しました: " +:+ error)).

Definition handleStopApp (app : RegisteredApp) : M State unit :=
  try_catch
    (console_log ("Stopping app: " +:+ name app +:+ " (ID: " +:+ id app +:+ ")") >>
     invoke env TVoid "stop_application" [("appId", VString (id app))] >>
     updateRunningApps (fun prev =>
       let newSet := list_to_set (C := gset string) (elements prev) in
       newSet ∖ {[ id app ]}) >>
     console_log ("Successfully stopped " +:+ name app))
    (fun error =>
       console_error "Failed to stop application:" error >>
       alert ("アプリケーションの停止に失敗しました: " +:+ error)).

Definition hideWindow : M State unit :=
  try_catch
    (invoke env TVoid "hide_window" [])
    (fun error => console_error "Failed to hide window:" error).
End Handlers.

(** [handleSettingsClose] starts both loads without awaiting them.  Each is
    answered by the backend as it is when its call arrives ([env1], [env2]);
    the two continuations write different state cells, so the state after both
    is the state of running them one after the other. *)
Definition handleSettingsClose (env1 env2 : Env) : M State unit :=
  bind (setShowSettings false) (fun _ =>
  bind (detached (loadRegisteredApps env1)) (fun _ =>
  detached (loadRunningApps env2))).

(** The button an app's row shows: [runningApps.has(app.id)] picks the stop
    button, otherwise the launch button. *)
Inductive button : Type := LaunchButton | StopButton.

Definition isRunning (st : State) (app : RegisteredApp) : bool :=
  bool_decide (id app ∈ runningApps st).

Definition actionButton (st : State) (app : RegisteredApp) : button :=
  if negb (isRunning st app) then LaunchButton else StopButton.

(** A click on the button the row shows. *)
Definition onClick (env : Env) (app : RegisteredApp) : M State unit :=
  bind get (fun st =>
    match actionButton st app with
    | LaunchButton => handleLaunchApp env app
    | StopButton => handleStopApp env app
    end).

End App.

(** ** App.tsx, before the [runningApps] set *)

Module AppV1.

Record State : Type := mkState {
  showSettings : bool;
  registeredApps : list RegisteredApp
}.

Definition setShowSettings (b : bool) : M State unit :=
  modify (fun st => mkState b (registeredApps st)).

Definition setRegisteredApps (apps : list RegisteredApp) : M State unit :=
  modify (fun st => mkState (showSettings st) apps).

Section Handlers.
Variable env : Env.

Local Open Scope js_scope.

Definition loadRegisteredApps : M State unit :=
  try_catch
    (let* apps := invoke env TApps "get_registered_apps" [] in
     setRegisteredApps apps)
    (fun error => console_error "Failed to load registered apps:" error).

Definition handleLaunchApp (app : RegisteredApp) : M State unit :=
  try_catch
    (invoke env TVoid "launch_application"
       [("appId", VString (id app));
        ("path", VString (path app));
        ("arguments", opt_value VString (arguments app))])
    (fun error => console_error "Failed to launch application:" error).

Definition hideWindow : M State unit :=
  try_catch
    (invoke env TVoid "hide_window" [])
    (fun error => console_error "Failed to hide window:" error).
Definition handleSettingsClose : M State unit :=
  setShowSettings false >>
  detached loadRegisteredApps.
End Handlers.

End AppV1.

(** ** The first App.tsx: a window that can only hide itself *)

Module AppV0.

Definition hideWindow (env : Env) : M unit unit :=
  try_catch
    (invoke env TVoid "hide_window" [])
    (fun error => console_error "Failed to hide window:" error).

End AppV0.

(** ** The backend's Launch Supervisor *)

Module Supervisor.

(** Modelled from the spec: the backend's RegisteredApp entity.  The native
    backend is not among the TypeScript sources; the record follows the
    data model of the specification (id, name and path required, arguments
    defaulting to empty, delay in whole seconds, two boolean flags). *)
Record AppRecord : Type := mkAppRecord {
  r_id : string;
  r_name : string;
  r_path : string;
  r_arguments : string;
  r_description : string;
  r_delay : nat;
  r_prevent_duplicate : bool;
  r_auto_start : bool
}.

(** Modelled from the spec: a RunningInstance, the transient record the
    supervisor keeps per spawned process: the app it belongs to, the process
    handle and the start timestamp. *)
Record RunningInstance : Type := mkRunningInstance {
  inst_app : string;
  inst_handle : nat;
  inst_started : nat
}.

(** Modelled from the spec: the supervisor's state: the registry keyed by id,
    the RunningInstance table, and the processes spawned so far (path and
    arguments of each), the OS-side effect of a launch. *)
Record State : Type := mkState {
  registry : gmap string AppRecord;
  running : list RunningInstance;
  spawned : list (string * string)
}.

Inductive error : Type := NotFound | LaunchError | NotRunning.

Inductive result : Type := Success | Failure (e : error).

(** Modelled from the spec: the operating system as seen by one launch
    request: spawning a path with arguments gives a process handle or fails
    (bad path, permission denied), and the clock gives the timestamp. *)
Record Os : Type := mkOs {
  spawn : string -> string -> option nat;
  now : nat
}.

Definition instances_of (app_id : string) (st : State) : list RunningInstance :=
  List.filter (fun i => String.eqb (inst_app i) app_id) (running st).

Definition is_running (app_id : string) (st : State) : bool :=
  match instances_of app_id st with
  | [] => false
  | _ :: _ => true
  end.

(** Modelled from the spec: [launch(id)] of the Launch Supervisor, which the
    sources only call through [launch_application].  It looks the record up
    and fails with NotFound if it is missing; if [prevent_duplicate] is set
    and a RunningInstance exists for the id it returns success without
    spawning; otherwise it spawns the process with the configured path and
    arguments and records a RunningInstance; a spawn failure is a
    LaunchError and leaves the state as it was. *)
Definition launch (os : Os) (app_id : string) (st : State) : result * State :=
  match registry st !! app_id with
  | None => (Failure NotFound, st)
  | Some app =>
      if r_prevent_duplicate app && is_running app_id st then (Success, st)
      else
        match spawn os (r_path app) (r_arguments app) with
        | None => (Failure LaunchError, st)
        | Some h =>
            (Success,
             mkState (registry st)
               (running st ++ [mkRunningInstance app_id h (now os)])
               (spawned st ++ [(r_path app, r_arguments app)]))
        end
  end.

End Supervisor.

(** ** Reading traces *)

(** A failed backend call is reported when a later [console.error] carries
    its error; an unhandled rejection is never acceptable. *)
Definition reports (err : string) (e : effect) : bool :=
  match e with
  | ConsoleError _ err' => String.eqb err err'
  | _ => false
  end.

Fixpoint failures_reported (tr : list effect) : bool :=
  match tr with
  | [] => true
  | Invoke _ _ (Some err) :: rest => existsb (reports err) rest && failures_reported rest
  | UnhandledRejection _ :: _ => false
  | _ :: rest => failures_reported rest
  end.

(** A handler contains backend failures when, from every state, it returns
    normally and its trace reports every failed call. *)
Definition contains_failures {St : Type} (m : M St unit) : Prop :=
  forall st : St, result_of m st = Normal tt /\ failures_reported (trace_of m st) = true.

(** The seven form fields as [handleSave] sends them. *)
Definition form_payload (fd : Settings.FormData) : payload :=
  [("name", VString (Settings.fd_name fd));
   ("path", VString (Settings.fd_path fd));
   ("arguments", VString (Settings.fd_arguments fd));
   ("description", VString (Settings.fd_description fd));
   ("delay", VNumber (Settings.fd_delay fd));
   ("preventDuplicate", VBool (Settings.fd_preventDuplicate fd));
   ("autoStart", VBool (Settings.fd_autoStart fd))].

(** The call [handleSave] makes for a form, by edit mode. *)
Definition save_call (st : Settings.State) : string * payload :=
  match Settings.editingApp st with
  | Some app => ("update_registered_app", ("id", VString (id app)) :: form_payload (Settings.formData st))
  | None => ("add_registered_app", form_payload (Settings.formData st))
  end.

Definition is_save_command (c : string * payload) : bool :=
  String.eqb c.1 "add_registered_app" || String.eqb c.1 "update_registered_app".

(** The argument object of [launch_application] and of [stop_application]. *)
Definition launch_args (app : RegisteredApp) : payload :=
  [("appId", VString (id app));
   ("path", VString (path app));
   ("arguments", opt_value VString (arguments app))].

Definition stop_args (app : RegisteredApp) : payload := [("appId", VString (id app))].

(** ** The handlers that reach the backend, by component *)

Inductive settings_handler : Type :=
| SettingsLoad
| SettingsSave
| SettingsDelete (app : RegisteredApp)
| SettingsSelectFile.

Definition settings_dispatch (env : Env) (h : settings_handler) : M Settings.State unit :=
  match h with
  | SettingsLoad => Settings.loadRegisteredApps env
  | SettingsSave => Settings.handleSave env
  | SettingsDelete app => Settings.handleDelete env app
  | SettingsSelectFile => Settings.selectFile env
  end.

Inductive app_handler : Type :=
| AppLoad
| AppLoadRunning
| AppLaunch (app : RegisteredApp)
| AppStop (app : RegisteredApp)
| AppHide.

Definition app_dispatch (env : Env) (h : app_handler) : M App.State unit :=
  match h with
  | AppLoad => App.loadRegisteredApps env
  | AppLoadRunning => App.loadRunningApps env
  | AppLaunch app => App.handleLaunchApp env app
  | AppStop app => App.handleStopApp env app
  | AppHide => App.hideWindow env
  end.

Inductive appv1_handler : Type :=
| AppV1Load
| AppV1Launch (app : RegisteredApp)
| AppV1Hide.

Definition appv1_dispatch (env : Env) (h : appv1_handler) : M AppV1.State unit :=
  match h with
  | AppV1Load => AppV1.loadRegisteredApps env
  | AppV1Launch app => AppV1.handleLaunchApp env app
  | AppV1Hide => AppV1.hideWindow env
  end.

(** ** Sample environments and records *)

Definition backend_up (apps : list RegisteredApp) (picked : option string)
    : forall t : rty, string -> payload -> outcome (rsem t) :=
  fun t _ _ =>
    match t return outcome (rsem t) with
    | TVoid => Resolved tt
    | TApps => Resolved apps
    | TPath => Resolved picked
    end.

Definition backend_down (msg : string) : forall t : rty, string -> payload -> outcome (rsem t) :=
  fun t _ _ => Rejected msg.

Definition notepad : RegisteredApp :=
  mkRegisteredApp "app-1" "Notepad" "C:\Windows\notepad.exe" None None (Some 0%Z) (Some true) (Some false).

Definition backup : RegisteredApp :=
  mkRegisteredApp "app-2" "Backup" "C:\Tools\backup.exe" (Some "--quiet") (Some "nightly backup")
    (Some 3%Z) None (Some true).

Definition env_up : Env := mkEnv (backend_up [notepad; backup] (Some "C:\Tools\picked.exe")) (fun _ => true).
Definition env_down : Env := mkEnv (backend_down "backend unavailable") (fun _ => true).
Definition env_cancel : Env := mkEnv (backend_up [notepad; backup] None) (fun _ => false).
Definition env_blank : Env := mkEnv (backend_up [notepad; backup] (Some "")) (fun _ => true).

Definition form_notepad : Settings.FormData :=
  Settings.mkFormData "Notepad" "C:\Windows\notepad.exe" "" "" 0 true false.

Definition form_no_name : Settings.FormData :=
  Settings.mkFormData "" "C:\Windows\notepad.exe" "" "" 0 true false.

Definition settings_adding : Settings.State := Settings.mkState [backup] false true None form_notepad.
Definition settings_editing : Settings.State := Settings.mkState [notepad] false true (Some notepad) form_notepad.
Definition settings_no_name : Settings.State := Settings.mkState [backup] false true None form_no_name.

Definition app_idle : App.State := App.mkState false [notepad; backup] {[ "app-2" ]}.

Definition sup_notepad : Supervisor.AppRecord :=
  Supervisor.mkAppRecord "app-1" "Notepad" "C:\Windows\notepad.exe" "" "" 0 true false.

Definition sup_stopped : Supervisor.State :=
  Supervisor.mkState {[ "app-1" := sup_notepad ]} [] [].

Definition os_ok : Supervisor.Os := Supervisor.mkOs (fun _ _ => Some 4242) 100.
Definition os_later : Supervisor.Os := Supervisor.mkOs (fun _ _ => Some 4343) 160.

Definition app_manual : App.State := App.mkState false [notepad; backup] ∅.

Definition no_delay : RegisteredApp :=
  mkRegisteredApp "app-3" "Clock" "C:\Tools\clock.exe" None None (Some 0%Z) None None.

(** * Theorems *)

(** ** Running handlers *)

Ltac unfold_js :=
  unfold run, result_of, state_of, trace_of, console_log, console_error, alert, confirm,
    detached, try_catch_finally, try_catch, invoke, emit, modify, get, bind, ret in *.

Ltac on_backend :=
  match goal with
  | |- context [backend ?env ?t ?cmd ?args] =>
      let r := fresh "r" in
      let E := fresh "E" in
      destruct (backend env t cmd args) as [r | r] eqn:E
  end.

Ltac exec := unfold_js; cbn; repeat (on_backend; cbn).

Lemma truthy_string_spec (s : string) : truthy_string s = true <-> s <> "".
Proof. destruct s; cbn; split; congruence. Qed.

Lemma truthy_string_false (s : string) : truthy_string s = false <-> s = "".
Proof. destruct s; cbn; split; congruence. Qed.

Example settings_save_adds :
  calls (trace_of (Settings.handleSave env_up) settings_adding)
  = [save_call settings_adding; ("get_registered_apps", [])].
Proof. reflexivity. Qed.

Example settings_save_down :
  trace_of (Settings.handleSave env_down) settings_editing
  = [Invoke "update_registered_app" (save_call settings_editing).2 (Some "backend unavailable");
     ConsoleError "Failed to save app:" "backend unavailable";
     Alert "保存に失敗しました"].
Proof. reflexivity. Qed.

(** ** Settings: saving the form *)

Lemma handleSave_blocked (env : Env) (st : Settings.State) :
  truthy_string (Settings.fd_name (Settings.formData st)) = false \/
  truthy_string (Settings.fd_path (Settings.formData st)) = false ->
  run (Settings.handleSave env) st = (Normal tt, st, [Alert "名前とパスは必須です"]).
Proof.
  intros H. unfold Settings.handleSave. unfold_js.
  destruct H as [-> | ->]; cbn; [reflexivity |].
  rewrite orb_true_r. reflexivity.
Qed.

Lemma handleSave_calls (env : Env) (st : Settings.State) :
  truthy_string (Settings.fd_name (Settings.formData st)) = true ->
  truthy_string (Settings.fd_path (Settings.formData st)) = true ->
  calls (trace_of (Settings.handleSave env) st) = [save_call st]
  \/ calls (trace_of (Settings.handleSave env) st) = [save_call st; ("get_registered_apps", [])].
Proof.
  intros Hn Hp. unfold Settings.handleSave, save_call, form_payload.
  unfold_js. rewrite Hn, Hp. cbn.
  destruct (Settings.editingApp st) as [app |];
    unfold Settings.resetForm, Settings.loadRegisteredApps, Settings.setFormData,
      Settings.setShowAddForm, Settings.setEditingApp, Settings.setIsLoading,
      Settings.setRegisteredApps;
    exec; auto.
Qed.

(** C1: when the name or the path of the form is the empty string,
    [handleSave] calls the backend not at all (so neither
    [add_registered_app] nor [update_registered_app]) and leaves the whole
    component state, the registered-app list and the form included, as it
    was; when both are non-empty its first backend call is the add or update
    invocation for the form, and it is the only add/update call made. *)
Theorem handleSave_requires_name_and_path (env : Env) (st : Settings.State) :
  (Settings.fd_name (Settings.formData st) = "" \/ Settings.fd_path (Settings.formData st) = "" ->
     calls (trace_of (Settings.handleSave env) st) = []
     /\ state_of (Settings.handleSave env) st = st) /\
  (Settings.fd_name (Settings.formData st) <> "" ->
   Settings.fd_path (Settings.formData st) <> "" ->
     exists rest,
       calls (trace_of (Settings.handleSave env) st) = save_call st :: rest
       /\ is_save_command (save_call st) = true
       /\ forallb (fun c => negb (is_save_command c)) rest = true).
Proof.
  split.
  - intros H.
    assert (Hrun : run (Settings.handleSave env) st
                   = (Normal tt, st, [Alert "名前とパスは必須です"])).
    { apply handleSave_blocked. destruct H as [H | H]; [left | right];
        now apply truthy_string_false. }
    unfold trace_of, state_of. unfold run in Hrun. rewrite Hrun. split; reflexivity.
  - intros Hn Hp.
    apply truthy_string_spec in Hn, Hp.
    assert (Hsave : is_save_command (save_call st) = true).
    { unfold save_call. destruct (Settings.editingApp st); reflexivity. }
    destruct (handleSave_calls env st Hn Hp) as [-> | ->].
    + exists []. repeat split; assumption.
    + exists [("get_registered_apps", [])]. repeat split; assumption.
Qed.

Lemma handleSave_requires_name_and_path_witness :
  (calls (trace_of (Settings.handleSave env_up) settings_no_name) = []
   /\ state_of (Settings.handleSave env_up) settings_no_name = settings_no_name)
  /\ exists rest,
       calls (trace_of (Settings.handleSave env_up) settings_adding) = save_call settings_adding :: rest
       /\ is_save_command (save_call settings_adding) = true
       /\ forallb (fun c => negb (is_save_command c)) rest = true.
Proof.
  split.
  - apply (proj1 (handleSave_requires_name_and_path env_up settings_no_name)).
    left. reflexivity.
  - apply (proj2 (handleSave_requires_name_and_path env_up settings_adding)); discriminate.
Defined.

(** C4: while an app is being edited and the form has a name and a path,
    [handleSave] invokes [update_registered_app] first, with [id] the id of
    the app under edit followed by the seven mutable fields taken from the
    current form, and it never invokes [add_registered_app]. *)
Theorem handleSave_updates_edited_app (env : Env) (st : Settings.State) (app : RegisteredApp) :
  Settings.editingApp st = Some app ->
  Settings.fd_name (Settings.formData st) <> "" ->
  Settings.fd_path (Settings.formData st) <> "" ->
  exists rest,
    calls (trace_of (Settings.handleSave env) st)
    = ("update_registered_app",
       [("id", VString (id app));
        ("name", VString (Settings.fd_name (Settings.formData st)));
        ("path", VString (Settings.fd_path (Settings.formData st)));
        ("arguments", VString (Settings.fd_arguments (Settings.formData st)));
        ("description", VString (Settings.fd_description (Settings.formData st)));
        ("delay", VNumber (Settings.fd_delay (Settings.formData st)));
        ("preventDuplicate", VBool (Settings.fd_preventDuplicate (Settings.formData st)));
        ("autoStart", VBool (Settings.fd_autoStart (Settings.formData st)))]) :: rest
    /\ forallb (fun c => negb (is_save_command c)) rest = true.
Proof.
  intros He Hn Hp.
  apply truthy_string_spec in Hn, Hp.
  pose proof (handleSave_calls env st Hn Hp) as Hc.
  unfold save_call in Hc. rewrite He in Hc. unfold form_payload in Hc.
  destruct Hc as [-> | ->].
  - exists []. split; reflexivity.
  - exists [("get_registered_apps", [])]. split; reflexivity.
Qed.

Lemma handleSave_updates_edited_app_witness :
  exists rest,
    calls (trace_of (Settings.handleSave env_up) settings_editing)
    = ("update_registered_app",
       [("id", VString "app-1");
        ("name", VString "Notepad");
        ("path", VString "C:\Windows\notepad.exe");
        ("arguments", VString "");
        ("description", VString "");
        ("delay", VNumber 0);
        ("preventDuplicate", VBool true);
        ("autoStart", VBool false)]) :: rest
    /\ forallb (fun c => negb (is_save_command c)) rest = true.
Proof.
  apply (handleSave_updates_edited_app env_up settings_editing notepad).
  - reflexivity.
  - simpl. discriminate.
  - simpl. discriminate.
Defined.

(** ** Settings: entering add and edit mode *)

Lemma handleAdd_run (st : Settings.State) :
  run Settings.handleAdd st
  = (Normal tt,
     Settings.mkState (Settings.registeredApps st) (Settings.isLoading st) true None
       (Settings.mkFormData "" "" "" "" 0 false false),
     [ConsoleLog "Add button clicked"]).
Proof. reflexivity. Qed.

Lemma onChange_editingApp (env : Env) (e : Settings.event) (st : Settings.State) :
  Settings.editingApp (state_of (Settings.onChange env e) st) = Settings.editingApp st.
Proof.
  destruct e; try reflexivity.
  unfold Settings.onChange, Settings.selectFile, Settings.setFormData. exec; try reflexivity.
  destruct r as [p |]; [destruct (truthy_string p) |]; reflexivity.
Qed.

Lemma edits_editingApp (env : Env) (es : list Settings.event) (st : Settings.State) :
  Settings.editingApp (Settings.edits env es st) = Settings.editingApp st.
Proof.
  revert st. induction es as [| e es IH]; intros st; cbn; [reflexivity |].
  rewrite IH. apply onChange_editingApp.
Qed.

Lemma save_command_of_mode (st : Settings.State) :
  (save_call st).1 = match Settings.editingApp st with
                     | Some _ => "update_registered_app"
                     | None => "add_registered_app"
                     end.
Proof. unfold save_call. destruct (Settings.editingApp st); reflexivity. Qed.

Lemma handleSave_commands (env : Env) (st : Settings.State) :
  Forall (fun c => c.1 = (save_call st).1 \/ c.1 = "get_registered_apps")
    (calls (trace_of (Settings.handleSave env) st)).
Proof.
  destruct (truthy_string (Settings.fd_name (Settings.formData st))) eqn:Hn;
    [destruct (truthy_string (Settings.fd_path (Settings.formData st))) eqn:Hp |].
  - destruct (handleSave_calls env st Hn Hp) as [-> | ->].
    + constructor; [left; reflexivity | constructor].
    + constructor; [left; reflexivity |].
      constructor; [right; reflexivity | constructor].
  - pose proof (handleSave_blocked env st (or_intror Hp)) as Hrun.
    unfold trace_of. unfold run in Hrun. rewrite Hrun. constructor.
  - pose proof (handleSave_blocked env st (or_introl Hn)) as Hrun.
    unfold trace_of. unfold run in Hrun. rewrite Hrun. constructor.
Qed.

(** C9: [handleAdd] leaves the form in the canonical add state, whatever the
    state before: the four text fields empty, delay 0, both flags false,
    [editingApp] null and the form shown.  Whatever the user then types into
    the form (or picks with the file dialog), a save made from there never
    invokes [update_registered_app]; once name and path are filled in, it
    invokes [add_registered_app] with the form's fields. *)
Theorem handleAdd_enters_add_mode (env : Env) (st : Settings.State) :
  let st0 := state_of Settings.handleAdd st in
  Settings.formData st0 = Settings.mkFormData "" "" "" "" 0 false false
  /\ Settings.editingApp st0 = None
  /\ Settings.showAddForm st0 = true
  /\ forall (es : list Settings.event) (env' : Env),
       let st1 := Settings.edits env es st0 in
       Forall (fun c => c.1 <> "update_registered_app")
         (calls (trace_of (Settings.handleSave env') st1))
       /\ (Settings.fd_name (Settings.formData st1) <> "" ->
           Settings.fd_path (Settings.formData st1) <> "" ->
           hd_error (calls (trace_of (Settings.handleSave env') st1))
           = Some ("add_registered_app", form_payload (Settings.formData st1))).
Proof.
  intros st0.
  assert (Hst0 : st0 = Settings.mkState (Settings.registeredApps st) (Settings.isLoading st)
                         true None (Settings.mkFormData "" "" "" "" 0 false false)).
  { unfold st0, state_of. pose proof (handleAdd_run st) as Hrun.
    unfold run in Hrun. rewrite Hrun. reflexivity. }
  clearbody st0.
  split; [| split; [| split]]; try (rewrite Hst0; reflexivity).
  intros es env' st1.
  assert (Hmode : Settings.editingApp st1 = None).
  { unfold st1. rewrite edits_editingApp, Hst0. reflexivity. }
  clearbody st1. split.
  - eapply Forall_impl; [apply handleSave_commands |].
    intros c Hc. cbn in Hc. rewrite save_command_of_mode, Hmode in Hc.
    destruct Hc as [-> | ->]; discriminate.
  - intros Hn Hp.
    apply truthy_string_spec in Hn, Hp.
    destruct (handleSave_calls env' st1 Hn Hp) as [-> | ->];
      unfold save_call; rewrite Hmode; reflexivity.
Qed.

Lemma handleAdd_enters_add_mode_witness :
  hd_error
    (calls (trace_of (Settings.handleSave env_down)
              (Settings.edits env_up [Settings.ChangeName "Notepad"; Settings.ClickSelectFile]
                 (state_of Settings.handleAdd settings_editing))))
  = Some ("add_registered_app",
          form_payload (Settings.mkFormData "Notepad" "C:\Tools\picked.exe" "" "" 0 false false)).
Proof.
  destruct (handleAdd_enters_add_mode env_up settings_editing) as (_ & _ & _ & H).
  destruct (H [Settings.ChangeName "Notepad"; Settings.ClickSelectFile] env_down) as [_ H2].
  apply H2; vm_compute; discriminate.
Defined.

Lemma or_default_string (o : option string) : or_default truthy_string o "" = default "" o.
Proof. destruct o as [[| c s] |]; reflexivity. Qed.

Lemma or_default_number (o : option Z) : or_default truthy_number o 0%Z = default 0%Z o.
Proof.
  destruct o as [n |]; [| reflexivity]. cbn. unfold truthy_number.
  destruct (Z.eqb_spec n 0); cbn; congruence.
Qed.

Lemma or_default_bool (o : option bool) : or_default truthy_bool o false = default false o.
Proof. destruct o as [[|] |]; reflexivity. Qed.

(** C10: [handleEdit] fills the form from the record: name and path as they
    are, arguments and description with the empty string when missing, delay
    with 0 when missing, and the two flags with false when missing; it records
    the app as the one under edit and shows the form.  Every field of the form
    is therefore a defined value: none of the fields a save would send is
    [undefined]. *)
Theorem handleEdit_fills_form (app : RegisteredApp) (st : Settings.State) :
  let st' := state_of (Settings.handleEdit app) st in
  Settings.formData st'
  = Settings.mkFormData (name app) (path app)
      (default "" (arguments app)) (default "" (description app))
      (default 0%Z (delay app))
      (default false (prevent_duplicate app)) (default false (auto_start app))
  /\ Settings.editingApp st' = Some app
  /\ Settings.showAddForm st' = true
  /\ Settings.registeredApps st' = Settings.registeredApps st
  /\ Forall (fun kv => kv.2 <> VUndefined) (form_payload (Settings.formData st')).
Proof.
  cbv zeta. unfold state_of, Settings.handleEdit, Settings.setFormData,
    Settings.setEditingApp, Settings.setShowAddForm.
  unfold_js. cbn.
  rewrite !or_default_string, or_default_number, !or_default_bool.
  repeat split.
  unfold form_payload. repeat constructor; discriminate.
Qed.

Example handleEdit_notepad :
  Settings.formData (state_of (Settings.handleEdit notepad) Settings.initial)
  = Settings.mkFormData "Notepad" "C:\Windows\notepad.exe" "" "" 0 true false.
Proof. reflexivity. Qed.

(** ** Settings: the file dialog *)

Lemma selectFile_run (env : Env) (st : Settings.State) :
  run (Settings.selectFile env) st
  = match backend env TPath "open_file_dialog" [] with
    | Resolved (Some p) =>
        (Normal tt,
         (if truthy_string p
          then Settings.mkState (Settings.registeredApps st) (Settings.isLoading st)
                 (Settings.showAddForm st) (Settings.editingApp st)
                 (Settings.mkFormData
                    (Settings.fd_name (Settings.formData st)) p
                    (Settings.fd_arguments (Settings.formData st))
                    (Settings.fd_description (Settings.formData st))
                    (Settings.fd_delay (Settings.formData st))
                    (Settings.fd_preventDuplicate (Settings.formData st))
                    (Settings.fd_autoStart (Settings.formData st)))
          else st),
         [Invoke "open_file_dialog" [] None])
    | Resolved None => (Normal tt, st, [Invoke "open_file_dialog" [] None])
    | Rejected err =>
        (Normal tt, st,
         [Invoke "open_file_dialog" [] (Some err); ConsoleError "Failed to select file:" err])
    end.
Proof.
  unfold Settings.selectFile, Settings.setFormData. exec; [| reflexivity].
  destruct r as [p |]; [destruct (truthy_string p) |]; reflexivity.
Qed.

(** C8, as stated, fails: the dialog may answer with a string that is not
    null and yet the path is not set to it.  With "C:\Windows\notepad.exe"
    in the form's path and the empty string as the dialog's answer, the
    answer is a non-null string and the path keeps its old content. *)
Lemma selectFile_ignores_empty_answer :
  backend env_blank TPath "open_file_dialog" [] = Resolved (Some "")
  /\ Settings.fd_path (Settings.formData settings_adding) = "C:\Windows\notepad.exe"
  /\ Settings.fd_path (Settings.formData (state_of (Settings.selectFile env_blank) settings_adding))
     <> "".
Proof. repeat split. vm_compute. discriminate. Qed.

(** C8, amended: when the dialog answers null or the empty string, or the
    call fails, [selectFile] leaves the whole component state unchanged; when
    it answers a non-empty string, [selectFile] sets the path field to that
    string and leaves every other form field (name, arguments, description,
    delay, preventDuplicate, autoStart) and the rest of the state unchanged. *)
Theorem selectFile_sets_only_path (env : Env) (st : Settings.State) :
  let st' := state_of (Settings.selectFile env) st in
  (backend env TPath "open_file_dialog" [] = Resolved None -> st' = st)
  /\ (backend env TPath "open_file_dialog" [] = Resolved (Some "") -> st' = st)
  /\ (forall err, backend env TPath "open_file_dialog" [] = Rejected err -> st' = st)
  /\ (forall p, p <> "" ->
        backend env TPath "open_file_dialog" [] = Resolved (Some p) ->
        Settings.fd_path (Settings.formData st') = p
        /\ Settings.fd_name (Settings.formData st') = Settings.fd_name (Settings.formData st)
        /\ Settings.fd_arguments (Settings.formData st') = Settings.fd_arguments (Settings.formData st)
        /\ Settings.fd_description (Settings.formData st') = Settings.fd_description (Settings.formData st)
        /\ Settings.fd_delay (Settings.formData st') = Settings.fd_delay (Settings.formData st)
        /\ Settings.fd_preventDuplicate (Settings.formData st')
           = Settings.fd_preventDuplicate (Settings.formData st)
        /\ Settings.fd_autoStart (Settings.formData st') = Settings.fd_autoStart (Settings.formData st)
        /\ Settings.registeredApps st' = Settings.registeredApps st
        /\ Settings.isLoading st' = Settings.isLoading st
        /\ Settings.showAddForm st' = Settings.showAddForm st
        /\ Settings.editingApp st' = Settings.editingApp st).
Proof.
  cbv zeta. unfold state_of.
  pose proof (selectFile_run env st) as Hrun. unfold run in Hrun. rewrite Hrun. clear Hrun.
  split; [| split; [| split]].
  - intros ->. reflexivity.
  - intros ->. reflexivity.
  - intros err ->. reflexivity.
  - intros p Hp ->. apply truthy_string_spec in Hp. rewrite Hp. cbn.
    repeat split.
Qed.

Lemma selectFile_sets_only_path_witness :
  state_of (Settings.selectFile env_cancel) settings_adding = settings_adding
  /\ state_of (Settings.selectFile env_blank) settings_adding = settings_adding
  /\ state_of (Settings.selectFile env_down) settings_adding = settings_adding
  /\ Settings.formData (state_of (Settings.selectFile env_up) settings_adding)
     = Settings.mkFormData "Notepad" "C:\Tools\picked.exe" "" "" 0 true false.
Proof.
  split; [| split; [| split]].
  - apply (proj1 (selectFile_sets_only_path env_cancel settings_adding)). reflexivity.
  - apply (proj1 (proj2 (selectFile_sets_only_path env_blank settings_adding))). reflexivity.
  - apply (proj1 (proj2 (proj2 (selectFile_sets_only_path env_down settings_adding)))
             "backend unavailable").
    reflexivity.
  - destruct (proj2 (proj2 (proj2 (selectFile_sets_only_path env_up settings_adding)))
                "C:\Tools\picked.exe") as (H1 & H2 & H3 & H4 & H5 & H6 & H7 & _).
    + discriminate.
    + reflexivity.
    + destruct (Settings.formData (state_of (Settings.selectFile env_up) settings_adding)).
      cbn in *. congruence.
Defined.

(** ** App: the [runningApps] set *)

Lemma set_of_elements (s : gset string) : list_to_set (C := gset string) (elements s) = s.
Proof. apply list_to_set_elements_L. Qed.

Lemma set_of_spread_with (s : gset string) (x : string) :
  list_to_set (C := gset string) (elements s ++ [x]) = s ∪ {[ x ]}.
Proof.
  apply set_eq. intros y.
  rewrite elem_of_list_to_set, elem_of_app, elem_of_elements, elem_of_union,
    list_elem_of_singleton, elem_of_singleton. reflexivity.
Qed.

Lemma loadRunningApps_run (env : Env) (st : App.State) :
  run (App.loadRunningApps env) st
  = match backend env TApps "get_registered_apps" [] with
    | Resolved apps =>
        (Normal tt,
         App.mkState (App.showSettings st) (App.registeredApps st)
           (list_to_set
              (List.map id (List.filter (fun app => truthy_opt truthy_bool (auto_start app)) apps))),
         [Invoke "get_registered_apps" [] None])
    | Rejected err =>
        (Normal tt, st,
         [Invoke "get_registered_apps" [] (Some err);
          ConsoleError "Failed to load running apps:" err])
    end.
Proof.
  unfold App.loadRunningApps, App.setRunningApps. exec; [| reflexivity].
  rewrite set_of_elements. reflexivity.
Qed.

(** C3: when [get_registered_apps] answers with a list of records,
    [loadRunningApps] sets [runningApps] to exactly the set of ids of the
    records whose [auto_start] flag is true: an id is in the new set if and
    only if some record of the answer has that id and the flag set.  The
    previous content of the set, and so any launch or stop recorded in it,
    plays no part. *)
Theorem loadRunningApps_is_auto_start_ids (env : Env) (st : App.State)
    (apps : list RegisteredApp) :
  backend env TApps "get_registered_apps" [] = Resolved apps ->
  let st' := state_of (App.loadRunningApps env) st in
  (forall x : string,
     x ∈ App.runningApps st' <->
     exists app, In app apps /\ auto_start app = Some true /\ id app = x)
  /\ App.registeredApps st' = App.registeredApps st
  /\ App.showSettings st' = App.showSettings st.
Proof.
  intros Hb. cbv zeta. unfold state_of.
  pose proof (loadRunningApps_run env st) as Hrun. unfold run in Hrun.
  rewrite Hrun, Hb. cbn. clear Hrun.
  split; [| split; reflexivity].
  intros x. rewrite elem_of_list_to_set, list_elem_of_In, in_map_iff.
  split.
  - intros (app & Hid & Hin). apply filter_In in Hin as [Hin Hflag].
    exists app. repeat split; try assumption.
    destruct (auto_start app) as [[|] |]; cbv in Hflag; congruence.
  - intros (app & Hin & Hflag & Hid).
    exists app. split; [assumption |]. apply filter_In. split; [assumption |].
    rewrite Hflag. reflexivity.
Qed.

Lemma loadRunningApps_is_auto_start_ids_witness :
  "app-2" ∈ App.runningApps (state_of (App.loadRunningApps env_up) app_idle) <->
  exists app, In app [notepad; backup] /\ auto_start app = Some true /\ id app = "app-2".
Proof.
  apply (proj1 (loadRunningApps_is_auto_start_ids env_up app_idle [notepad; backup] eq_refl)
           "app-2").
Defined.

(** C5: for every record, the launch handler (in both versions of App.tsx)
    makes exactly one backend call, [launch_application], whose argument
    object has the three keys [appId], [path] and [arguments], bound to the
    record's id, path and arguments, and nothing else. *)
Theorem handleLaunchApp_call (env : Env) (app : RegisteredApp)
    (st : App.State) (st1 : AppV1.State) :
  calls (trace_of (App.handleLaunchApp env app) st)
  = [("launch_application",
      [("appId", VString (id app));
       ("path", VString (path app));
       ("arguments", opt_value VString (arguments app))])]
  /\ calls (trace_of (AppV1.handleLaunchApp env app) st1)
     = [("launch_application",
         [("appId", VString (id app));
          ("path", VString (path app));
          ("arguments", opt_value VString (arguments app))])].
Proof.
  split.
  - unfold App.handleLaunchApp, App.updateRunningApps. exec; reflexivity.
  - unfold AppV1.handleLaunchApp. exec; reflexivity.
Qed.

Example handleLaunchApp_backup :
  calls (trace_of (App.handleLaunchApp env_up backup) app_idle)
  = [("launch_application",
      [("appId", VString "app-2"); ("path", VString "C:\Tools\backup.exe");
       ("arguments", VString "--quiet")])].
Proof. reflexivity. Qed.

Lemma handleLaunchApp_run (env : Env) (app : RegisteredApp) (st : App.State) :
  run (App.handleLaunchApp env app) st
  = match backend env TVoid "launch_application" (launch_args app) with
    | Resolved _ =>
        (Normal tt,
         App.mkState (App.showSettings st) (App.registeredApps st)
           (App.runningApps st ∪ {[ id app ]}),
         [Invoke "launch_application" (launch_args app) None])
    | Rejected err =>
        (Normal tt, st,
         [Invoke "launch_application" (launch_args app) (Some err);
          ConsoleError "Failed to launch application:" err;
          Alert ("アプリケーションの起動に失敗しました: " +:+ err)])
    end.
Proof.
  unfold App.handleLaunchApp, App.updateRunningApps, launch_args. exec; [| reflexivity].
  rewrite set_of_spread_with. reflexivity.
Qed.

Lemma handleStopApp_run (env : Env) (app : RegisteredApp) (st : App.State) :
  run (App.handleStopApp env app) st
  = match backend env TVoid "stop_application" (stop_args app) with
    | Resolved _ =>
        (Normal tt,
         App.mkState (App.showSettings st) (App.registeredApps st)
           (App.runningApps st ∖ {[ id app ]}),
         [ConsoleLog ("Stopping app: " +:+ name app +:+ " (ID: " +:+ id app +:+ ")");
          Invoke "stop_application" (stop_args app) None;
          ConsoleLog ("Successfully stopped " +:+ name app)])
    | Rejected err =>
        (Normal tt, st,
         [ConsoleLog ("Stopping app: " +:+ name app +:+ " (ID: " +:+ id app +:+ ")");
          Invoke "stop_application" (stop_args app) (Some err);
          ConsoleError "Failed to stop application:" err;
          Alert ("アプリケーションの停止に失敗しました: " +:+ err)])
    end.
Proof.
  unfold App.handleStopApp, App.updateRunningApps, stop_args. exec; [| reflexivity].
  rewrite set_of_elements. reflexivity.
Qed.

(** C6: for every app and every [runningApps] set, a launch that the backend
    accepts yields the set with the app's id added and the membership of every
    other id unchanged; a stop that the backend accepts yields the set with
    the app's id removed and every other id unchanged; and when the backend
    rejects the call, the state, [runningApps] included, is unchanged. *)
Theorem runningApps_frame (env : Env) (app : RegisteredApp) (st : App.State) :
  let launched := state_of (App.handleLaunchApp env app) st in
  let stopped := state_of (App.handleStopApp env app) st in
  (forall r, backend env TVoid "launch_application" (launch_args app) = Resolved r ->
     App.runningApps launched = App.runningApps st ∪ {[ id app ]}
     /\ id app ∈ App.runningApps launched
     /\ forall x, x <> id app -> (x ∈ App.runningApps launched <-> x ∈ App.runningApps st))
  /\ (forall err, backend env TVoid "launch_application" (launch_args app) = Rejected err ->
        launched = st)
  /\ (forall r, backend env TVoid "stop_application" (stop_args app) = Resolved r ->
        App.runningApps stopped = App.runningApps st ∖ {[ id app ]}
        /\ (id app ∉ App.runningApps stopped)
        /\ forall x, x <> id app -> (x ∈ App.runningApps stopped <-> x ∈ App.runningApps st))
  /\ (forall err, backend env TVoid "stop_application" (stop_args app) = Rejected err ->
        stopped = st).
Proof.
  cbv zeta. unfold state_of.
  pose proof (handleLaunchApp_run env app st) as Hl.
  pose proof (handleStopApp_run env app st) as Hs.
  unfold run in Hl, Hs. rewrite Hl, Hs. clear Hl Hs.
  split; [| split; [| split]].
  - intros r ->. cbn. split; [reflexivity |]. split.
    + apply elem_of_union_r, elem_of_singleton. reflexivity.
    + intros x Hx. rewrite elem_of_union, elem_of_singleton. tauto.
  - intros err ->. reflexivity.
  - intros r ->. cbn. split; [reflexivity |]. split.
    + rewrite elem_of_difference, elem_of_singleton. tauto.
    + intros x Hx. rewrite elem_of_difference, elem_of_singleton. tauto.
  - intros err ->. reflexivity.
Qed.

Lemma runningApps_frame_witness :
  App.runningApps (state_of (App.handleLaunchApp env_up notepad) app_idle)
  = {[ "app-2" ]} ∪ {[ "app-1" ]}
  /\ state_of (App.handleLaunchApp env_down notepad) app_idle = app_idle
  /\ App.runningApps (state_of (App.handleStopApp env_up backup) app_idle)
     = {[ "app-2" ]} ∖ {[ "app-2" ]}
  /\ state_of (App.handleStopApp env_down backup) app_idle = app_idle.
Proof.
  split; [| split; [| split]].
  - apply (proj1 (runningApps_frame env_up notepad app_idle) tt). reflexivity.
  - apply (proj1 (proj2 (runningApps_frame env_down notepad app_idle)) "backend unavailable").
    reflexivity.
  - apply (proj1 (proj2 (proj2 (runningApps_frame env_up backup app_idle))) tt). reflexivity.
  - apply (proj2 (proj2 (proj2 (runningApps_frame env_down backup app_idle)))
             "backend unavailable").
    reflexivity.
Defined.

(** ** Failures never escape a handler *)

Ltac contained :=
  intros st; unfold contains_failures, result_of, trace_of;
  exec; rewrite ?String.eqb_refl; cbn;
  repeat match goal with
         | x : rsem TVoid |- _ => destruct x
         | x : unit |- _ => destruct x
         end;
  auto.

Lemma settings_load_contained (env : Env) : contains_failures (Settings.loadRegisteredApps env).
Proof.
  unfold Settings.loadRegisteredApps, Settings.setIsLoading, Settings.setRegisteredApps.
  contained.
Qed.

Lemma settings_save_contained (env : Env) : contains_failures (Settings.handleSave env).
Proof.
  unfold Settings.handleSave, Settings.resetForm, Settings.loadRegisteredApps,
    Settings.setFormData, Settings.setShowAddForm, Settings.setEditingApp,
    Settings.setIsLoading, Settings.setRegisteredApps.
  intros st. unfold contains_failures, result_of, trace_of. unfold_js.
  destruct (negb _ || negb _); [cbn; auto |].
  destruct (Settings.editingApp st); exec; rewrite ?String.eqb_refl; cbn; auto.
Qed.

Lemma settings_delete_contained (env : Env) (app : RegisteredApp) :
  contains_failures (Settings.handleDelete env app).
Proof.
  unfold Settings.handleDelete, Settings.loadRegisteredApps,
    Settings.setIsLoading, Settings.setRegisteredApps.
  intros st. unfold contains_failures, result_of, trace_of. unfold_js.
  destruct (confirm_answer env _); [| cbn; auto].
  exec; rewrite ?String.eqb_refl; cbn; auto.
Qed.

Lemma settings_select_contained (env : Env) : contains_failures (Settings.selectFile env).
Proof.
  intros st. unfold contains_failures, result_of, trace_of.
  pose proof (selectFile_run env st) as Hrun. unfold run in Hrun. rewrite Hrun.
  destruct (backend env TPath "open_file_dialog" []) as [[p |] | err]; cbn;
    rewrite ?String.eqb_refl; auto.
Qed.

Lemma app_load_contained (env : Env) : contains_failures (App.loadRegisteredApps env).
Proof. unfold App.loadRegisteredApps, App.setRegisteredApps. contained. Qed.

Lemma app_load_running_contained (env : Env) : contains_failures (App.loadRunningApps env).
Proof. unfold App.loadRunningApps, App.setRunningApps. contained. Qed.

Lemma app_launch_contained (env : Env) (app : RegisteredApp) :
  contains_failures (App.handleLaunchApp env app).
Proof. unfold App.handleLaunchApp, App.updateRunningApps. contained. Qed.

Lemma app_stop_contained (env : Env) (app : RegisteredApp) :
  contains_failures (App.handleStopApp env app).
Proof. unfold App.handleStopApp, App.updateRunningApps. contained. Qed.

Lemma app_hide_contained (env : Env) : contains_failures (App.hideWindow env).
Proof. unfold App.hideWindow. contained. Qed.

Lemma appv1_contained (env : Env) (h : appv1_handler) : contains_failures (appv1_dispatch env h).
Proof.
  destruct h; cbn [appv1_dispatch];
    unfold AppV1.loadRegisteredApps, AppV1.handleLaunchApp, AppV1.hideWindow,
      AppV1.setRegisteredApps;
    contained.
Qed.

(** The predicate is not vacuous: a bare [invoke] with no [try] around it
    does not contain the failure of a backend that is down. *)
Example bare_invoke_escapes :
  result_of (invoke (St := unit) env_down TVoid "hide_window" []) tt = Throw "backend unavailable"
  /\ failures_reported (trace_of (invoke (St := unit) env_down TVoid "hide_window" []) tt) = false.
Proof. split; reflexivity. Qed.

Example stop_down_trace :
  trace_of (App.handleStopApp env_down backup) app_idle
  = [ConsoleLog "Stopping app: Backup (ID: app-2)";
     Invoke "stop_application" [("appId", VString "app-2")] (Some "backend unavailable");
     ConsoleError "Failed to stop application:" "backend unavailable";
     Alert "アプリケーションの停止に失敗しました: backend unavailable"].
Proof. reflexivity. Qed.

(** C7: every handler that reaches the backend (load, save, delete and the
    file dialog in Settings; load, launch, stop and hide in each version of
    App) is total over the backend's outcomes: from
    every state and for every backend it returns normally, no rejection is
    left unhandled, and each call the backend rejected is followed in the
    trace by a [console.error] carrying that error. *)
Theorem handlers_contain_backend_failures (env : Env) :
  (forall h, contains_failures (settings_dispatch env h))
  /\ (forall h, contains_failures (app_dispatch env h))
  /\ (forall h, contains_failures (appv1_dispatch env h))
  /\ contains_failures (AppV0.hideWindow env).
Proof.
  split; [| split; [| split]].
  - intros [| | app |]; cbn [settings_dispatch].
    + apply settings_load_contained.
    + apply settings_save_contained.
    + apply settings_delete_contained.
    + apply settings_select_contained.
  - intros [| | app | app |]; cbn [app_dispatch].
    + apply app_load_contained.
    + apply app_load_running_contained.
    + apply app_launch_contained.
    + apply app_stop_contained.
    + apply app_hide_contained.
  - apply appv1_contained.
  - unfold AppV0.hideWindow. contained.
Qed.

(** ** The supervisor's duplicate prevention *)

Lemma is_running_length (app_id : string) (st : Supervisor.State) :
  Supervisor.is_running app_id st = true <-> 1 <= length (Supervisor.instances_of app_id st).
Proof.
  unfold Supervisor.is_running.
  destruct (Supervisor.instances_of app_id st); cbn; split; intros H;
    try reflexivity; try discriminate; lia.
Qed.

Lemma instances_after_spawn (app_id : string) (h t : nat) (st : Supervisor.State)
    (sp : list (string * string)) :
  Supervisor.instances_of app_id
    (Supervisor.mkState (Supervisor.registry st)
       (Supervisor.running st ++ [Supervisor.mkRunningInstance app_id h t]) sp)
  = Supervisor.instances_of app_id st ++ [Supervisor.mkRunningInstance app_id h t].
Proof.
  unfold Supervisor.instances_of. cbn [Supervisor.running].
  rewrite List.filter_app. cbn. rewrite String.eqb_refl. reflexivity.
Qed.

Lemma launch_noop_when_running (os : Supervisor.Os) (app_id : string)
    (app : Supervisor.AppRecord) (st : Supervisor.State) :
  Supervisor.registry st !! app_id = Some app ->
  Supervisor.r_prevent_duplicate app = true ->
  Supervisor.is_running app_id st = true ->
  Supervisor.launch os app_id st = (Supervisor.Success, st).
Proof.
  intros Hreg Hflag Hrun. unfold Supervisor.launch.
  rewrite Hreg, Hflag, Hrun. reflexivity.
Qed.

(** C2: for every registered app with [prevent_duplicate = true], a launch
    request made while a RunningInstance exists for its id returns success
    and leaves the supervisor's state, the table of instances and the list of
    spawned processes, exactly as it was: no second process is spawned.
    Hence, from a state with at most one instance of the app, two launch calls
    in a row, the first of them successful, leave exactly one RunningInstance;
    the second call succeeds and changes nothing. *)
Theorem launch_prevent_duplicate_is_idempotent (os1 os2 : Supervisor.Os) (app_id : string)
    (app : Supervisor.AppRecord) (st : Supervisor.State) :
  Supervisor.registry st !! app_id = Some app ->
  Supervisor.r_prevent_duplicate app = true ->
  (Supervisor.is_running app_id st = true ->
     Supervisor.launch os1 app_id st = (Supervisor.Success, st))
  /\ (length (Supervisor.instances_of app_id st) <= 1 ->
      (Supervisor.launch os1 app_id st).1 = Supervisor.Success ->
      let st1 := (Supervisor.launch os1 app_id st).2 in
      Supervisor.launch os2 app_id st1 = (Supervisor.Success, st1)
      /\ length (Supervisor.instances_of app_id st1) = 1
      /\ length (Supervisor.spawned st1) <= S (length (Supervisor.spawned st))).
Proof.
  intros Hreg Hflag. split.
  - apply (launch_noop_when_running os1 app_id app st Hreg Hflag).
  - intros Hle Hok. cbv zeta.
    destruct (Supervisor.is_running app_id st) eqn:Hrun.
    + rewrite (launch_noop_when_running os1 app_id app st Hreg Hflag Hrun). cbn [fst snd].
      split; [apply (launch_noop_when_running os2 app_id app st Hreg Hflag Hrun) |].
      apply is_running_length in Hrun. lia.
    + assert (Hnone : Supervisor.instances_of app_id st = []).
      { unfold Supervisor.is_running in Hrun.
        destruct (Supervisor.instances_of app_id st); [reflexivity | discriminate]. }
      assert (Hl : exists h,
                 Supervisor.launch os1 app_id st
                 = (Supervisor.Success,
                    Supervisor.mkState (Supervisor.registry st)
                      (Supervisor.running st
                       ++ [Supervisor.mkRunningInstance app_id h (Supervisor.now os1)])
                      (Supervisor.spawned st
                       ++ [(Supervisor.r_path app, Supervisor.r_arguments app)]))).
      { revert Hok. unfold Supervisor.launch.
        rewrite Hreg, Hflag, Hrun. cbn [andb].
        destruct (Supervisor.spawn os1 _ _) as [h |]; cbn [fst snd]; [| discriminate].
        intros _. exists h. reflexivity. }
      destruct Hl as [h Hl]. rewrite Hl. cbn [fst snd].
      pose proof (instances_after_spawn app_id h (Supervisor.now os1) st
                    (Supervisor.spawned st ++ [(Supervisor.r_path app, Supervisor.r_arguments app)]))
        as Hinst.
      rewrite Hnone in Hinst. cbn [List.app] in Hinst.
      split; [| split].
      * apply (launch_noop_when_running os2 app_id app); [assumption | assumption |].
        unfold Supervisor.is_running. rewrite Hinst. reflexivity.
      * rewrite Hinst. reflexivity.
      * cbn [Supervisor.spawned]. rewrite length_app. cbn. lia.
Qed.

Lemma launch_prevent_duplicate_is_idempotent_witness :
  Supervisor.launch os_later "app-1" (Supervisor.launch os_ok "app-1" sup_stopped).2
  = (Supervisor.Success, (Supervisor.launch os_ok "app-1" sup_stopped).2)
  /\ length (Supervisor.instances_of "app-1" (Supervisor.launch os_ok "app-1" sup_stopped).2) = 1
  /\ length (Supervisor.spawned (Supervisor.launch os_ok "app-1" sup_stopped).2) <= 1.
Proof.
  apply (proj2 (launch_prevent_duplicate_is_idempotent os_ok os_later "app-1" sup_notepad
                  sup_stopped eq_refl eq_refl)).
  - vm_compute. lia.
  - reflexivity.
Defined.

Example launch_twice_spawns_once :
  let st1 := (Supervisor.launch os_ok "app-1" sup_stopped).2 in
  let st2 := (Supervisor.launch os_later "app-1" st1).2 in
  Supervisor.running st2 = [Supervisor.mkRunningInstance "app-1" 4242 100]
  /\ Supervisor.spawned st2 = [("C:\Windows\notepad.exe", "")].
Proof. split; reflexivity. Qed.


(** * Further properties of the handlers *)

(** ** Settings: loading, saving and deleting *)

Lemma settings_load_run (env : Env) (st : Settings.State) :
  run (Settings.loadRegisteredApps env) st
  = match backend env TApps "get_registered_apps" [] with
    | Resolved apps =>
        (Normal tt,
         Settings.mkState apps false (Settings.showAddForm st) (Settings.editingApp st)
           (Settings.formData st),
         [Invoke "get_registered_apps" [] None])
    | Rejected err =>
        (Normal tt,
         Settings.mkState (Settings.registeredApps st) false (Settings.showAddForm st)
           (Settings.editingApp st) (Settings.formData st),
         [Invoke "get_registered_apps" [] (Some err);
          ConsoleError "Failed to load registered apps:" err])
    end.
Proof.
  unfold Settings.loadRegisteredApps, Settings.setIsLoading, Settings.setRegisteredApps.
  exec; reflexivity.
Qed.

(** X1: whatever the backend answers, [loadRegisteredApps] of the settings
    panel ends with [isLoading] false (the [finally] block), makes the single
    call [get_registered_apps] without arguments, takes the answer as the new
    list or keeps the old list when the call fails, and leaves the form, the
    app under edit and the form's visibility alone. *)
Theorem settings_load_outcome (env : Env) (st : Settings.State) :
  Settings.isLoading (state_of (Settings.loadRegisteredApps env) st) = false
  /\ Settings.registeredApps (state_of (Settings.loadRegisteredApps env) st)
     = match backend env TApps "get_registered_apps" [] with
       | Resolved apps => apps
       | Rejected _ => Settings.registeredApps st
       end
  /\ Settings.formData (state_of (Settings.loadRegisteredApps env) st) = Settings.formData st
  /\ Settings.editingApp (state_of (Settings.loadRegisteredApps env) st) = Settings.editingApp st
  /\ Settings.showAddForm (state_of (Settings.loadRegisteredApps env) st) = Settings.showAddForm st
  /\ calls (trace_of (Settings.loadRegisteredApps env) st) = [("get_registered_apps", [])].
Proof.
  unfold state_of, trace_of.
  pose proof (settings_load_run env st) as Hrun. unfold run in Hrun. rewrite Hrun.
  destruct (backend env TApps "get_registered_apps" []); repeat split.
Qed.

Lemma handleSave_run (env : Env) (st : Settings.State) :
  Settings.fd_name (Settings.formData st) <> "" ->
  Settings.fd_path (Settings.formData st) <> "" ->
  run (Settings.handleSave env) st
  = match backend env TVoid (save_call st).1 (save_call st).2 with
    | Rejected err =>
        (Normal tt, st,
         [Invoke (save_call st).1 (save_call st).2 (Some err);
          ConsoleError "Failed to save app:" err;
          Alert "保存に失敗しました"])
    | Resolved _ =>
        match backend env TApps "get_registered_apps" [] with
        | Resolved apps =>
            (Normal tt,
             Settings.mkState apps false false None
               (Settings.mkFormData "" "" "" "" 0 false false),
             [Invoke (save_call st).1 (save_call st).2 None;
              Invoke "get_registered_apps" [] None])
        | Rejected err =>
            (Normal tt,
             Settings.mkState (Settings.registeredApps st) false false None
               (Settings.mkFormData "" "" "" "" 0 false false),
             [Invoke (save_call st).1 (save_call st).2 None;
              Invoke "get_registered_apps" [] (Some err);
              ConsoleError "Failed to load registered apps:" err])
        end
    end.
Proof.
  intros Hn Hp. apply truthy_string_spec in Hn, Hp.
  unfold Settings.handleSave, save_call, form_payload.
  unfold_js. rewrite Hn, Hp. cbn.
  destruct (Settings.editingApp st) as [app |];
    unfold Settings.resetForm, Settings.loadRegisteredApps, Settings.setFormData,
      Settings.setShowAddForm, Settings.setEditingApp, Settings.setIsLoading,
      Settings.setRegisteredApps;
    exec; reflexivity.
Qed.

(** X2: when the form has a name and a path and the backend accepts the save
    call, [handleSave] closes the form (all fields back to their defaults,
    form hidden, no app under edit) and reloads the list: it makes exactly the
    save call followed by [get_registered_apps], ends with [isLoading] false,
    and shows the reloaded list, or the old list if the reload fails. *)
Theorem handleSave_success_resets_and_reloads (env : Env) (st : Settings.State) (r : unit) :
  Settings.fd_name (Settings.formData st) <> "" ->
  Settings.fd_path (Settings.formData st) <> "" ->
  backend env TVoid (save_call st).1 (save_call st).2 = Resolved r ->
  Settings.formData (state_of (Settings.handleSave env) st)
  = Settings.mkFormData "" "" "" "" 0 false false
  /\ Settings.showAddForm (state_of (Settings.handleSave env) st) = false
  /\ Settings.editingApp (state_of (Settings.handleSave env) st) = None
  /\ Settings.isLoading (state_of (Settings.handleSave env) st) = false
  /\ Settings.registeredApps (state_of (Settings.handleSave env) st)
     = match backend env TApps "get_registered_apps" [] with
       | Resolved apps => apps
       | Rejected _ => Settings.registeredApps st
       end
  /\ calls (trace_of (Settings.handleSave env) st)
     = [save_call st; ("get_registered_apps", [])].
Proof.
  intros Hn Hp Hb. unfold state_of, trace_of.
  pose proof (handleSave_run env st Hn Hp) as Hrun. unfold run in Hrun.
  rewrite Hrun, Hb.
  destruct (backend env TApps "get_registered_apps" []); cbn;
    destruct (save_call st); repeat split.
Qed.

Lemma handleSave_success_resets_and_reloads_witness :
  Settings.formData (state_of (Settings.handleSave env_up) settings_editing)
  = Settings.mkFormData "" "" "" "" 0 false false
  /\ Settings.showAddForm (state_of (Settings.handleSave env_up) settings_editing) = false
  /\ Settings.editingApp (state_of (Settings.handleSave env_up) settings_editing) = None
  /\ Settings.isLoading (state_of (Settings.handleSave env_up) settings_editing) = false
  /\ Settings.registeredApps (state_of (Settings.handleSave env_up) settings_editing)
     = [notepad; backup]
  /\ calls (trace_of (Settings.handleSave env_up) settings_editing)
     = [save_call settings_editing; ("get_registered_apps", [])].
Proof.
  apply (handleSave_success_resets_and_reloads env_up settings_editing tt).
  - simpl. discriminate.
  - simpl. discriminate.
  - reflexivity.
Defined.

(** X3: when the backend rejects the save call, [handleSave] changes nothing:
    the form keeps what the user typed and stays open, the list is not
    reloaded, and the failure is logged and announced with the alert
    "保存に失敗しました". *)
Theorem handleSave_failure_keeps_form (env : Env) (st : Settings.State) (err : string) :
  Settings.fd_name (Settings.formData st) <> "" ->
  Settings.fd_path (Settings.formData st) <> "" ->
  backend env TVoid (save_call st).1 (save_call st).2 = Rejected err ->
  state_of (Settings.handleSave env) st = st
  /\ trace_of (Settings.handleSave env) st
     = [Invoke (save_call st).1 (save_call st).2 (Some err);
        ConsoleError "Failed to save app:" err;
        Alert "保存に失敗しました"].
Proof.
  intros Hn Hp Hb. unfold state_of, trace_of.
  pose proof (handleSave_run env st Hn Hp) as Hrun. unfold run in Hrun.
  rewrite Hrun, Hb. split; reflexivity.
Qed.

Lemma handleSave_failure_keeps_form_witness :
  state_of (Settings.handleSave env_down) settings_adding = settings_adding
  /\ trace_of (Settings.handleSave env_down) settings_adding
     = [Invoke (save_call settings_adding).1 (save_call settings_adding).2
          (Some "backend unavailable");
        ConsoleError "Failed to save app:" "backend unavailable";
        Alert "保存に失敗しました"].
Proof.
  apply (handleSave_failure_keeps_form env_down settings_adding "backend unavailable").
  - simpl. discriminate.
  - simpl. discriminate.
  - reflexivity.
Defined.

Lemma handleDelete_run (env : Env) (app : RegisteredApp) (st : Settings.State) :
  run (Settings.handleDelete env app) st
  = if confirm_answer env ("「" +:+ name app +:+ "」を削除しますか？") then
      match backend env TVoid "remove_registered_app" [("id", VString (id app))] with
      | Rejected err =>
          (Normal tt, st,
           [Confirm ("「" +:+ name app +:+ "」を削除しますか？") true;
            Invoke "remove_registered_app" [("id", VString (id app))] (Some err);
            ConsoleError "Failed to delete app:" err;
            Alert "削除に失敗しました"])
      | Resolved _ =>
          match backend env TApps "get_registered_apps" [] with
          | Resolved apps =>
              (Normal tt,
               Settings.mkState apps false (Settings.showAddForm st) (Settings.editingApp st)
                 (Settings.formData st),
               [Confirm ("「" +:+ name app +:+ "」を削除しますか？") true;
                Invoke "remove_registered_app" [("id", VString (id app))] None;
                Invoke "get_registered_apps" [] None])
          | Rejected err =>
              (Normal tt,
               Settings.mkState (Settings.registeredApps st) false (Settings.showAddForm st)
                 (Settings.editingApp st) (Settings.formData st),
               [Confirm ("「" +:+ name app +:+ "」を削除しますか？") true;
                Invoke "remove_registered_app" [("id", VString (id app))] None;
                Invoke "get_registered_apps" [] (Some err);
                ConsoleError "Failed to load registered apps:" err])
          end
      end
    else (Normal tt, st, [Confirm ("「" +:+ name app +:+ "」を削除しますか？") false]).
Proof.
  unfold Settings.handleDelete, Settings.loadRegisteredApps,
    Settings.setIsLoading, Settings.setRegisteredApps.
  unfold_js.
  destruct (confirm_answer env _); [| reflexivity].
  exec; reflexivity.
Qed.

(** X4: when the user declines the confirmation, which names the app,
    [handleDelete] does nothing else: no backend call, no message, and the
    state is unchanged. *)
Theorem handleDelete_declined_is_noop (env : Env) (app : RegisteredApp) (st : Settings.State) :
  confirm_answer env ("「" +:+ name app +:+ "」を削除しますか？") = false ->
  state_of (Settings.handleDelete env app) st = st
  /\ trace_of (Settings.handleDelete env app) st
     = [Confirm ("「" +:+ name app +:+ "」を削除しますか？") false].
Proof.
  intros Hc. unfold state_of, trace_of.
  pose proof (handleDelete_run env app st) as Hrun. unfold run in Hrun.
  rewrite Hrun, Hc. split; reflexivity.
Qed.

Lemma handleDelete_declined_is_noop_witness :
  state_of (Settings.handleDelete env_cancel notepad) settings_editing = settings_editing
  /\ trace_of (Settings.handleDelete env_cancel notepad) settings_editing
     = [Confirm ("「" +:+ name notepad +:+ "」を削除しますか？") false].
Proof.
  apply (handleDelete_declined_is_noop env_cancel notepad settings_editing).
  reflexivity.
Defined.

(** X5: when the user confirms, [handleDelete] first invokes
    [remove_registered_app] with the app's id as the only argument.  If the
    backend rejects it, the state is unchanged, the list is not reloaded and
    the alert "削除に失敗しました" is raised; if it accepts, the list is reloaded
    with [get_registered_apps] and [isLoading] ends false. *)
Theorem handleDelete_confirmed (env : Env) (app : RegisteredApp) (st : Settings.State) :
  confirm_answer env ("「" +:+ name app +:+ "」を削除しますか？") = true ->
  hd_error (calls (trace_of (Settings.handleDelete env app) st))
  = Some ("remove_registered_app", [("id", VString (id app))])
  /\ (forall err,
        backend env TVoid "remove_registered_app" [("id", VString (id app))] = Rejected err ->
        state_of (Settings.handleDelete env app) st = st
        /\ calls (trace_of (Settings.handleDelete env app) st)
           = [("remove_registered_app", [("id", VString (id app))])]
        /\ In (Alert "削除に失敗しました") (trace_of (Settings.handleDelete env app) st))
  /\ (forall r,
        backend env TVoid "remove_registered_app" [("id", VString (id app))] = Resolved r ->
        calls (trace_of (Settings.handleDelete env app) st)
        = [("remove_registered_app", [("id", VString (id app))]); ("get_registered_apps", [])]
        /\ Settings.isLoading (state_of (Settings.handleDelete env app) st) = false
        /\ Settings.registeredApps (state_of (Settings.handleDelete env app) st)
           = match backend env TApps "get_registered_apps" [] with
             | Resolved apps => apps
             | Rejected _ => Settings.registeredApps st
             end).
Proof.
  intros Hc. unfold state_of, trace_of.
  pose proof (handleDelete_run env app st) as Hrun. unfold run in Hrun.
  rewrite Hrun, Hc. clear Hrun.
  split; [| split].
  - destruct (backend env TVoid "remove_registered_app" _); [| reflexivity].
    destruct (backend env TApps "get_registered_apps" []); reflexivity.
  - intros err ->. cbn. repeat split. right. right. right. left. reflexivity.
  - intros r ->. destruct (backend env TApps "get_registered_apps" []); repeat split.
Qed.

Lemma handleDelete_confirmed_witness :
  hd_error (calls (trace_of (Settings.handleDelete env_up notepad) settings_editing))
  = Some ("remove_registered_app", [("id", VString "app-1")])
  /\ state_of (Settings.handleDelete env_down notepad) settings_editing = settings_editing
  /\ Settings.registeredApps (state_of (Settings.handleDelete env_up notepad) settings_editing)
     = [notepad; backup].
Proof.
  split; [| split].
  - apply (proj1 (handleDelete_confirmed env_up notepad settings_editing eq_refl)).
  - apply (proj1 (proj2 (handleDelete_confirmed env_down notepad settings_editing eq_refl))
             "backend unavailable" eq_refl).
  - apply (proj2 (proj2 (handleDelete_confirmed env_up notepad settings_editing eq_refl))
             tt eq_refl).
Defined.

Lemma handleDelete_keeps_form (env : Env) (app : RegisteredApp) (st : Settings.State) :
  Settings.formData (state_of (Settings.handleDelete env app) st) = Settings.formData st
  /\ Settings.editingApp (state_of (Settings.handleDelete env app) st) = Settings.editingApp st
  /\ Settings.showAddForm (state_of (Settings.handleDelete env app) st) = Settings.showAddForm st.
Proof.
  unfold state_of.
  pose proof (handleDelete_run env app st) as Hrun. unfold run in Hrun. rewrite Hrun.
  destruct (confirm_answer env _); [| repeat split].
  destruct (backend env TVoid "remove_registered_app" _); [| repeat split].
  destruct (backend env TApps "get_registered_apps" []); repeat split.
Qed.

(** X6: deleting an app never leaves edit mode.  [handleDelete] keeps the
    form, its visibility and the app under edit in every case, so after the
    app under edit itself has been deleted, a save from the open form still
    invokes [update_registered_app] with the deleted app's id. *)
Theorem delete_keeps_edit_mode (env env' : Env) (app : RegisteredApp) (st : Settings.State) :
  Settings.editingApp st = Some app ->
  Settings.fd_name (Settings.formData st) <> "" ->
  Settings.fd_path (Settings.formData st) <> "" ->
  Settings.editingApp (state_of (Settings.handleDelete env app) st) = Some app
  /\ Settings.showAddForm (state_of (Settings.handleDelete env app) st) = Settings.showAddForm st
  /\ hd_error (calls (trace_of (Settings.handleSave env')
                        (state_of (Settings.handleDelete env app) st)))
     = Some ("update_registered_app",
             ("id", VString (id app)) :: form_payload (Settings.formData st)).
Proof.
  intros He Hn Hp.
  destruct (handleDelete_keeps_form env app st) as (Hf & He' & Hs).
  split; [congruence | split; [assumption |]].
  assert (Hn' : truthy_string (Settings.fd_name
                  (Settings.formData (state_of (Settings.handleDelete env app) st))) = true).
  { rewrite Hf. now apply truthy_string_spec. }
  assert (Hp' : truthy_string (Settings.fd_path
                  (Settings.formData (state_of (Settings.handleDelete env app) st))) = true).
  { rewrite Hf. now apply truthy_string_spec. }
  destruct (handleSave_calls env' _ Hn' Hp') as [-> | ->];
    unfold save_call; rewrite He', He, Hf; reflexivity.
Qed.

Lemma delete_keeps_edit_mode_witness :
  Settings.editingApp (state_of (Settings.handleDelete env_up notepad) settings_editing)
  = Some notepad
  /\ Settings.showAddForm (state_of (Settings.handleDelete env_up notepad) settings_editing)
     = Settings.showAddForm settings_editing
  /\ hd_error (calls (trace_of (Settings.handleSave env_up)
                        (state_of (Settings.handleDelete env_up notepad) settings_editing)))
     = Some ("update_registered_app",
             ("id", VString "app-1") :: form_payload (Settings.formData settings_editing)).
Proof.
  apply (delete_keeps_edit_mode env_up env_up notepad settings_editing).
  - reflexivity.
  - simpl. discriminate.
  - simpl. discriminate.
Defined.

(** ** Settings: the form *)

(** X7: [resetForm], the cancel button, discards the form from any state:
    all fields back to their defaults, the form hidden, no app under edit,
    while the list and the loading flag stay as they are.  Cancelling twice is
    cancelling once, and a save after a cancel makes no backend call and
    leaves the state alone. *)
Theorem resetForm_cancels (env : Env) (st : Settings.State) :
  state_of Settings.resetForm st
  = Settings.mkState (Settings.registeredApps st) (Settings.isLoading st) false None
      (Settings.mkFormData "" "" "" "" 0 false false)
  /\ state_of Settings.resetForm (state_of Settings.resetForm st) = state_of Settings.resetForm st
  /\ calls (trace_of (Settings.handleSave env) (state_of Settings.resetForm st)) = []
  /\ state_of (Settings.handleSave env) (state_of Settings.resetForm st)
     = state_of Settings.resetForm st.
Proof.
  assert (Hreset : state_of Settings.resetForm st
                   = Settings.mkState (Settings.registeredApps st) (Settings.isLoading st)
                       false None (Settings.mkFormData "" "" "" "" 0 false false))
    by reflexivity.
  split; [assumption |]. split; [reflexivity |].
  pose proof (handleSave_blocked env (state_of Settings.resetForm st)) as Hrun.
  rewrite Hreset in *. unfold run in Hrun. unfold trace_of, state_of.
  rewrite Hrun; [split; reflexivity | left; reflexivity].
Qed.

Lemma handleEdit_state (app : RegisteredApp) (st : Settings.State) :
  Settings.formData (state_of (Settings.handleEdit app) st)
  = Settings.mkFormData (name app) (path app)
      (default "" (arguments app)) (default "" (description app))
      (default 0%Z (delay app))
      (default false (prevent_duplicate app)) (default false (auto_start app))
  /\ Settings.editingApp (state_of (Settings.handleEdit app) st) = Some app.
Proof.
  unfold state_of, Settings.handleEdit, Settings.setFormData,
    Settings.setEditingApp, Settings.setShowAddForm.
  unfold_js. cbn.
  rewrite !or_default_string, or_default_number, !or_default_bool.
  split; reflexivity.
Qed.

(** X8: entering edit mode on a record that has a name and a path and saving
    at once sends the record back: the first call is [update_registered_app]
    with the record's id, name and path, and with arguments, description,
    delay and the two flags as the record has them, or the empty string, 0
    and false where the record lacks them. *)
Theorem edit_then_save_round_trip (env : Env) (app : RegisteredApp) (st : Settings.State) :
  name app <> "" ->
  path app <> "" ->
  hd_error (calls (trace_of (Settings.handleSave env) (state_of (Settings.handleEdit app) st)))
  = Some ("update_registered_app",
          [("id", VString (id app));
           ("name", VString (name app));
           ("path", VString (path app));
           ("arguments", VString (default "" (arguments app)));
           ("description", VString (default "" (description app)));
           ("delay", VNumber (default 0%Z (delay app)));
           ("preventDuplicate", VBool (default false (prevent_duplicate app)));
           ("autoStart", VBool (default false (auto_start app)))]).
Proof.
  intros Hn Hp.
  destruct (handleEdit_state app st) as (Hf & He).
  assert (Hn' : truthy_string (Settings.fd_name
                  (Settings.formData (state_of (Settings.handleEdit app) st))) = true).
  { rewrite Hf. now apply truthy_string_spec. }
  assert (Hp' : truthy_string (Settings.fd_path
                  (Settings.formData (state_of (Settings.handleEdit app) st))) = true).
  { rewrite Hf. now apply truthy_string_spec. }
  destruct (handleSave_calls env _ Hn' Hp') as [-> | ->];
    unfold save_call, form_payload; rewrite He, Hf; reflexivity.
Qed.

Lemma edit_then_save_round_trip_witness :
  hd_error (calls (trace_of (Settings.handleSave env_up)
                     (state_of (Settings.handleEdit backup) Settings.initial)))
  = Some ("update_registered_app",
          [("id", VString "app-2");
           ("name", VString "Backup");
           ("path", VString "C:\Tools\backup.exe");
           ("arguments", VString "--quiet");
           ("description", VString "nightly backup");
           ("delay", VNumber 3);
           ("preventDuplicate", VBool false);
           ("autoStart", VBool true)]).
Proof.
  apply (edit_then_save_round_trip env_up backup Settings.initial).
  - simpl. discriminate.
  - simpl. discriminate.
Defined.

Lemma onChange_select (env : Env) (st : Settings.State) :
  run (Settings.onChange env Settings.ClickSelectFile) st = run (Settings.selectFile env) st.
Proof.
  unfold run. cbv [Settings.onChange bind get].
  destruct (Settings.selectFile env st) as [[c st'] tr]. reflexivity.
Qed.

Lemma onChange_frame (env : Env) (e : Settings.event) (st : Settings.State) :
  Settings.registeredApps (state_of (Settings.onChange env e) st) = Settings.registeredApps st
  /\ Settings.isLoading (state_of (Settings.onChange env e) st) = Settings.isLoading st
  /\ Settings.showAddForm (state_of (Settings.onChange env e) st) = Settings.showAddForm st
  /\ Settings.editingApp (state_of (Settings.onChange env e) st) = Settings.editingApp st.
Proof.
  destruct e; try (repeat split; reflexivity).
  unfold state_of. pose proof (onChange_select env st) as Hsel. unfold run in Hsel.
  rewrite Hsel.
  pose proof (selectFile_run env st) as Hrun. unfold run in Hrun. rewrite Hrun.
  destruct (backend env TPath "open_file_dialog" []) as [[p |] | err];
    [destruct (truthy_string p) | |]; repeat split; reflexivity.
Qed.

Lemma onChange_calls (env : Env) (e : Settings.event) (st : Settings.State) :
  calls (trace_of (Settings.onChange env e) st)
  = match e with
    | Settings.ClickSelectFile => [("open_file_dialog", [])]
    | _ => []
    end.
Proof.
  destruct e; try reflexivity.
  unfold trace_of. pose proof (onChange_select env st) as Hsel. unfold run in Hsel.
  rewrite Hsel.
  pose proof (selectFile_run env st) as Hrun. unfold run in Hrun. rewrite Hrun.
  destruct (backend env TPath "open_file_dialog" []) as [[p |] | err]; reflexivity.
Qed.

(** X9: typing into the form and picking a file change nothing but the form
    data: after any sequence of form events the list, the loading flag, the
    form's visibility and the app under edit are what they were; and a single
    form event makes no backend call, except the file button, which makes the
    one call [open_file_dialog]. *)
Theorem edits_change_only_the_form (env : Env) (es : list Settings.event) (st : Settings.State) :
  Settings.registeredApps (Settings.edits env es st) = Settings.registeredApps st
  /\ Settings.isLoading (Settings.edits env es st) = Settings.isLoading st
  /\ Settings.showAddForm (Settings.edits env es st) = Settings.showAddForm st
  /\ Settings.editingApp (Settings.edits env es st) = Settings.editingApp st
  /\ (forall (e : Settings.event) (st' : Settings.State),
        calls (trace_of (Settings.onChange env e) st')
        = match e with
          | Settings.ClickSelectFile => [("open_file_dialog", [])]
          | _ => []
          end).
Proof.
  assert (Hframe : forall es st,
             Settings.registeredApps (Settings.edits env es st) = Settings.registeredApps st
             /\ Settings.isLoading (Settings.edits env es st) = Settings.isLoading st
             /\ Settings.showAddForm (Settings.edits env es st) = Settings.showAddForm st
             /\ Settings.editingApp (Settings.edits env es st) = Settings.editingApp st).
  { clear es st. induction es as [| e es IH]; intros st; cbn [Settings.edits].
    - repeat split.
    - destruct (IH (state_of (Settings.onChange env e) st)) as (H1 & H2 & H3 & H4).
      destruct (onChange_frame env e st) as (F1 & F2 & F3 & F4).
      repeat split; congruence. }
  destruct (Hframe es st) as (H1 & H2 & H3 & H4).
  repeat split; try assumption.
  intros e st'. apply onChange_calls.
Qed.

(** X10: the form's heading and the label of its save button announce the
    command a save will invoke.  With a name and a path in the form, either
    the heading is "アプリケーション編集", the button reads "更新" and the first
    call of [handleSave] is [update_registered_app], or the heading is
    "アプリケーション追加", the button reads "追加" and the first call is
    [add_registered_app]. *)
Theorem save_button_label_matches_command (env : Env) (st : Settings.State) :
  Settings.fd_name (Settings.formData st) <> "" ->
  Settings.fd_path (Settings.formData st) <> "" ->
  (Settings.formTitle st = "アプリケーション編集"
   /\ Settings.saveButtonLabel st = "更新"
   /\ exists args,
        hd_error (calls (trace_of (Settings.handleSave env) st))
        = Some ("update_registered_app", args))
  \/ (Settings.formTitle st = "アプリケーション追加"
      /\ Settings.saveButtonLabel st = "追加"
      /\ exists args,
           hd_error (calls (trace_of (Settings.handleSave env) st))
           = Some ("add_registered_app", args)).
Proof.
  intros Hn Hp. apply truthy_string_spec in Hn, Hp.
  pose proof (handleSave_calls env st Hn Hp) as Hc.
  unfold Settings.formTitle, Settings.saveButtonLabel.
  unfold save_call in Hc.
  destruct (Settings.editingApp st) as [app |]; [left | right];
    (split; [reflexivity | split; [reflexivity |]]);
    destruct Hc as [-> | ->]; eexists; reflexivity.
Qed.

Lemma save_button_label_matches_command_witness :
  (Settings.formTitle settings_adding = "アプリケーション編集"
   /\ Settings.saveButtonLabel settings_adding = "更新"
   /\ exists args,
        hd_error (calls (trace_of (Settings.handleSave env_up) settings_adding))
        = Some ("update_registered_app", args))
  \/ (Settings.formTitle settings_adding = "アプリケーション追加"
      /\ Settings.saveButtonLabel settings_adding = "追加"
      /\ exists args,
           hd_error (calls (trace_of (Settings.handleSave env_up) settings_adding))
           = Some ("add_registered_app", args)).
Proof.
  apply (save_button_label_matches_command env_up settings_adding).
  - simpl. discriminate.
  - simpl. discriminate.
Defined.

(** ** Settings: the app cards *)

(** X11: the delay slot of an app card,
    [app.delay && app.delay > 0 && <span ...>], evaluates to the badge span
    exactly for a positive delay.  For a delay of 0 it evaluates to the number
    0 itself, not to false; for a missing delay to undefined, and for a
    negative delay to false. *)
Theorem delayBadge_cases (app : RegisteredApp) :
  (delay app = None -> Settings.delayBadge app = NValue VUndefined)
  /\ (delay app = Some 0%Z -> Settings.delayBadge app = NValue (VNumber 0))
  /\ (forall n : Z, (0 < n)%Z -> delay app = Some n ->
        Settings.delayBadge app
        = NElement "span" "delay" [VString "遅延: "; VNumber n; VString "秒"])
  /\ (forall n : Z, (n < 0)%Z -> delay app = Some n ->
        Settings.delayBadge app = NValue (VBool false)).
Proof.
  unfold Settings.delayBadge, js_and.
  split; [| split; [| split]].
  - intros ->. reflexivity.
  - intros ->. reflexivity.
  - intros n Hn ->. cbn. unfold truthy_number.
    destruct (Z.eqb_spec n 0) as [-> | _]; [lia |]. cbn.
    destruct (Z.ltb_spec 0 n); [reflexivity | lia].
  - intros n Hn ->. cbn. unfold truthy_number.
    destruct (Z.eqb_spec n 0) as [-> | _]; [lia |]. cbn.
    destruct (Z.ltb_spec 0 n); [lia | reflexivity].
Qed.

Lemma delayBadge_cases_witness :
  Settings.delayBadge (mkRegisteredApp "app-4" "Bare" "C:\Tools\bare.exe" None None None None None)
  = NValue VUndefined
  /\ Settings.delayBadge no_delay = NValue (VNumber 0)
  /\ Settings.delayBadge backup
     = NElement "span" "delay" [VString "遅延: "; VNumber 3; VString "秒"]
  /\ Settings.delayBadge
       (mkRegisteredApp "app-5" "Odd" "C:\Tools\odd.exe" None None (Some (-2)%Z) None None)
     = NValue (VBool false).
Proof.
  split; [| split; [| split]].
  - apply (proj1 (delayBadge_cases
                    (mkRegisteredApp "app-4" "Bare" "C:\Tools\bare.exe" None None None None None))).
    reflexivity.
  - apply (proj1 (proj2 (delayBadge_cases no_delay))). reflexivity.
  - apply (proj1 (proj2 (proj2 (delayBadge_cases backup))) 3%Z); [lia | reflexivity].
  - apply (proj2 (proj2 (proj2 (delayBadge_cases
                    (mkRegisteredApp "app-5" "Odd" "C:\Tools\odd.exe" None None
                       (Some (-2)%Z) None None)))) (-2)%Z); [lia | reflexivity].
Defined.

(** ** App: loading, launching and stopping *)

Lemma app_load_run (env : Env) (st : App.State) :
  run (App.loadRegisteredApps env) st
  = match backend env TApps "get_registered_apps" [] with
    | Resolved apps =>
        (Normal tt, App.mkState (App.showSettings st) apps (App.runningApps st),
         [Invoke "get_registered_apps" [] None])
    | Rejected err =>
        (Normal tt, st,
         [Invoke "get_registered_apps" [] (Some err);
          ConsoleError "Failed to load registered apps:" err])
    end.
Proof. unfold App.loadRegisteredApps, App.setRegisteredApps. exec; reflexivity. Qed.

Lemma appv1_load_run (env : Env) (st : AppV1.State) :
  run (AppV1.loadRegisteredApps env) st
  = match backend env TApps "get_registered_apps" [] with
    | Resolved apps =>
        (Normal tt, AppV1.mkState (AppV1.showSettings st) apps,
         [Invoke "get_registered_apps" [] None])
    | Rejected err =>
        (Normal tt, st,
         [Invoke "get_registered_apps" [] (Some err);
          ConsoleError "Failed to load registered apps:" err])
    end.
Proof. unfold AppV1.loadRegisteredApps, AppV1.setRegisteredApps. exec; reflexivity. Qed.

(** X12: in both versions of App, [loadRegisteredApps] makes the single call
    [get_registered_apps] and takes the answer as the new list, or keeps the
    old list when the call fails; it never touches the [runningApps] set nor
    the settings flag. *)
Theorem app_load_keeps_running (env : Env) (st : App.State) (st1 : AppV1.State) :
  App.runningApps (state_of (App.loadRegisteredApps env) st) = App.runningApps st
  /\ App.showSettings (state_of (App.loadRegisteredApps env) st) = App.showSettings st
  /\ App.registeredApps (state_of (App.loadRegisteredApps env) st)
     = match backend env TApps "get_registered_apps" [] with
       | Resolved apps => apps
       | Rejected _ => App.registeredApps st
       end
  /\ calls (trace_of (App.loadRegisteredApps env) st) = [("get_registered_apps", [])]
  /\ AppV1.showSettings (state_of (AppV1.loadRegisteredApps env) st1) = AppV1.showSettings st1
  /\ AppV1.registeredApps (state_of (AppV1.loadRegisteredApps env) st1)
     = match backend env TApps "get_registered_apps" [] with
       | Resolved apps => apps
       | Rejected _ => AppV1.registeredApps st1
       end
  /\ calls (trace_of (AppV1.loadRegisteredApps env) st1) = [("get_registered_apps", [])].
Proof.
  unfold state_of, trace_of.
  pose proof (app_load_run env st) as H. pose proof (appv1_load_run env st1) as H1.
  unfold run in H, H1. rewrite H, H1.
  destruct (backend env TApps "get_registered_apps" []); repeat split.
Qed.

Lemma launch_state (env : Env) (app : RegisteredApp) (st : App.State) (r : unit) :
  backend env TVoid "launch_application" (launch_args app) = Resolved r ->
  state_of (App.handleLaunchApp env app) st
  = App.mkState (App.showSettings st) (App.registeredApps st) (App.runningApps st ∪ {[ id app ]}).
Proof.
  intros Hb. unfold state_of.
  pose proof (handleLaunchApp_run env app st) as H. unfold run in H. rewrite H, Hb. reflexivity.
Qed.

Lemma stop_state (env : Env) (app : RegisteredApp) (st : App.State) (r : unit) :
  backend env TVoid "stop_application" (stop_args app) = Resolved r ->
  state_of (App.handleStopApp env app) st
  = App.mkState (App.showSettings st) (App.registeredApps st) (App.runningApps st ∖ {[ id app ]}).
Proof.
  intros Hb. unfold state_of.
  pose proof (handleStopApp_run env app st) as H. unfold run in H. rewrite H, Hb. reflexivity.
Qed.

Lemma union_then_remove (s : gset string) (x : string) : (s ∪ {[ x ]}) ∖ {[ x ]} = s ∖ {[ x ]}.
Proof.
  apply set_eq. intros y.
  rewrite !elem_of_difference, elem_of_union, elem_of_singleton. tauto.
Qed.

Lemma remove_then_union (s : gset string) (x : string) : (s ∖ {[ x ]}) ∪ {[ x ]} = s ∪ {[ x ]}.
Proof.
  apply set_eq. intros y.
  rewrite !elem_of_union, elem_of_difference, elem_of_singleton.
  destruct (decide (y = x)); tauto.
Qed.

Lemma remove_absent (s : gset string) (x : string) : x ∉ s -> s ∖ {[ x ]} = s.
Proof.
  intros Hx. apply set_eq. intros y.
  rewrite elem_of_difference, elem_of_singleton.
  split; [tauto |]. intros Hy. split; [assumption |]. intros ->. contradiction.
Qed.

Lemma union_twice (s : gset string) (x : string) : (s ∪ {[ x ]}) ∪ {[ x ]} = s ∪ {[ x ]}.
Proof.
  apply set_eq. intros y. rewrite !elem_of_union, elem_of_singleton. tauto.
Qed.

(** X13: launching and stopping compose as set operations on [runningApps].
    When the backend accepts both calls, a launch followed by a stop of the
    same app leaves the set without its id, and restores the whole state if
    the id was not in the set before; a stop followed by a launch leaves the
    set with its id; and launching twice gives the state of launching once. *)
Theorem launch_stop_round_trip (envL envS : Env) (app : RegisteredApp) (st : App.State)
    (rL rS : unit) :
  backend envL TVoid "launch_application" (launch_args app) = Resolved rL ->
  backend envS TVoid "stop_application" (stop_args app) = Resolved rS ->
  App.runningApps (state_of (App.handleStopApp envS app) (state_of (App.handleLaunchApp envL app) st))
  = App.runningApps st ∖ {[ id app ]}
  /\ (id app ∉ App.runningApps st ->
      state_of (App.handleStopApp envS app) (state_of (App.handleLaunchApp envL app) st) = st)
  /\ App.runningApps
       (state_of (App.handleLaunchApp envL app) (state_of (App.handleStopApp envS app) st))
     = App.runningApps st ∪ {[ id app ]}
  /\ state_of (App.handleLaunchApp envL app) (state_of (App.handleLaunchApp envL app) st)
     = state_of (App.handleLaunchApp envL app) st.
Proof.
  intros HL HS.
  rewrite !(launch_state envL app _ rL HL), !(stop_state envS app _ rS HS).
  cbn [App.runningApps App.showSettings App.registeredApps].
  split; [apply union_then_remove |]. split; [| split].
  - intros Hx. rewrite union_then_remove, (remove_absent _ _ Hx). destruct st; reflexivity.
  - apply remove_then_union.
  - rewrite union_twice. reflexivity.
Qed.

Lemma launch_stop_round_trip_witness :
  App.runningApps
    (state_of (App.handleStopApp env_up notepad)
       (state_of (App.handleLaunchApp env_up notepad) app_manual))
  = App.runningApps app_manual ∖ {[ id notepad ]}
  /\ state_of (App.handleStopApp env_up notepad)
       (state_of (App.handleLaunchApp env_up notepad) app_manual) = app_manual
  /\ App.runningApps
       (state_of (App.handleLaunchApp env_up notepad)
          (state_of (App.handleStopApp env_up notepad) app_manual))
     = App.runningApps app_manual ∪ {[ id notepad ]}
  /\ state_of (App.handleLaunchApp env_up notepad)
       (state_of (App.handleLaunchApp env_up notepad) app_manual)
     = state_of (App.handleLaunchApp env_up notepad) app_manual.
Proof.
  destruct (launch_stop_round_trip env_up env_up notepad app_manual tt tt eq_refl eq_refl)
    as (H1 & H2 & H3 & H4).
  split; [exact H1 |]. split; [| split; [exact H3 | exact H4]].
  apply H2. apply not_elem_of_empty.
Defined.

(** ** App: the button of a row *)

Lemma onClick_run (env : Env) (app : RegisteredApp) (st : App.State) :
  run (App.onClick env app) st
  = match App.actionButton st app with
    | App.LaunchButton => run (App.handleLaunchApp env app) st
    | App.StopButton => run (App.handleStopApp env app) st
    end.
Proof.
  unfold run. cbv [App.onClick bind get].
  destruct (App.actionButton st app).
  - destruct (App.handleLaunchApp env app st) as [[c st'] tr]. reflexivity.
  - destruct (App.handleStopApp env app st) as [[c st'] tr]. reflexivity.
Qed.

Lemma actionButton_spec (st : App.State) (app : RegisteredApp) :
  (App.actionButton st app = App.StopButton <-> id app ∈ App.runningApps st)
  /\ (App.actionButton st app = App.LaunchButton <-> id app ∉ App.runningApps st).
Proof.
  unfold App.actionButton, App.isRunning.
  destruct (bool_decide_reflect (id app ∈ App.runningApps st)); cbn;
    split; split; intros H; try reflexivity; try discriminate; try assumption;
    contradiction.
Qed.

Lemma actionButton_ext (st st' : App.State) (app : RegisteredApp) :
  (id app ∈ App.runningApps st' <-> id app ∈ App.runningApps st) ->
  App.actionButton st' app = App.actionButton st app.
Proof.
  intros H. unfold App.actionButton, App.isRunning.
  rewrite (bool_decide_ext _ _ H). reflexivity.
Qed.

(** X14: a row shows the stop button exactly when the app's id is in
    [runningApps].  A click on the shown button makes the one call that
    belongs to it ([launch_application] for the launch button,
    [stop_application] for the stop button).  When the backend accepts the
    launch and the stop of the app, the click flips this row's button and
    leaves the button of every row with another id as it was; when the backend
    rejects both, the click changes nothing. *)
Theorem click_toggles_button (env : Env) (app : RegisteredApp) (st : App.State) :
  calls (trace_of (App.onClick env app) st)
  = [match App.actionButton st app with
     | App.LaunchButton => ("launch_application", launch_args app)
     | App.StopButton => ("stop_application", stop_args app)
     end]
  /\ (forall rL rS : unit,
        backend env TVoid "launch_application" (launch_args app) = Resolved rL ->
        backend env TVoid "stop_application" (stop_args app) = Resolved rS ->
        App.actionButton (state_of (App.onClick env app) st) app
        = match App.actionButton st app with
          | App.LaunchButton => App.StopButton
          | App.StopButton => App.LaunchButton
          end
        /\ forall other : RegisteredApp,
             id other <> id app ->
             App.actionButton (state_of (App.onClick env app) st) other
             = App.actionButton st other)
  /\ (forall eL eS : string,
        backend env TVoid "launch_application" (launch_args app) = Rejected eL ->
        backend env TVoid "stop_application" (stop_args app) = Rejected eS ->
        state_of (App.onClick env app) st = st).
Proof.
  unfold state_of, trace_of.
  pose proof (onClick_run env app st) as Hrun. unfold run in Hrun. rewrite Hrun. clear Hrun.
  pose proof (handleLaunchApp_run env app st) as HL.
  pose proof (handleStopApp_run env app st) as HS.
  unfold run in HL, HS.
  split; [| split].
  - destruct (App.actionButton st app); [rewrite HL | rewrite HS].
    + destruct (backend env TVoid "launch_application" _); reflexivity.
    + destruct (backend env TVoid "stop_application" _); reflexivity.
  - intros rL rS HbL HbS.
    destruct (App.actionButton st app) eqn:Hbtn;
      [rewrite HL, HbL | rewrite HS, HbS]; cbn [fst snd]; split.
    + apply actionButton_spec. cbn. apply elem_of_union_r, elem_of_singleton. reflexivity.
    + intros other Hne. apply actionButton_ext. cbn.
      rewrite elem_of_union, elem_of_singleton. tauto.
    + apply actionButton_spec. cbn. rewrite elem_of_difference, elem_of_singleton. tauto.
    + intros other Hne. apply actionButton_ext. cbn.
      rewrite elem_of_difference, elem_of_singleton. tauto.
  - intros eL eS HbL HbS.
    destruct (App.actionButton st app); [rewrite HL, HbL | rewrite HS, HbS]; reflexivity.
Qed.

Lemma click_toggles_button_witness :
  App.actionButton (state_of (App.onClick env_up backup) app_idle) backup = App.LaunchButton
  /\ App.actionButton (state_of (App.onClick env_up backup) app_idle) notepad
     = App.actionButton app_idle notepad
  /\ state_of (App.onClick env_down backup) app_idle = app_idle.
Proof.
  destruct (click_toggles_button env_up backup app_idle) as (_ & Hok & _).
  destruct (Hok tt tt eq_refl eq_refl) as [Hflip Hother].
  destruct (click_toggles_button env_down backup app_idle) as (_ & _ & Hfail).
  split; [exact Hflip |]. split.
  - apply Hother. cbn. discriminate.
  - apply (Hfail "backend unavailable" "backend unavailable"); reflexivity.
Defined.

(** X15: a reload of the running set forgets what the user did.  When
    [get_registered_apps] answers, the set after [loadRunningApps] is the same
    from every state.  So an app the backend lists with no true [auto_start]
    flag, launched with success, is in the set after the launch and no longer
    after the reload; and an app listed with a true [auto_start], stopped with
    success, is out of the set after the stop and back in it after the
    reload. *)
Theorem reload_overrides_launch_and_stop (env envL envS : Env) (app : RegisteredApp)
    (st : App.State) (apps : list RegisteredApp) :
  backend env TApps "get_registered_apps" [] = Resolved apps ->
  (forall st1 st2 : App.State,
     App.runningApps (state_of (App.loadRunningApps env) st1)
     = App.runningApps (state_of (App.loadRunningApps env) st2))
  /\ (forall rL : unit,
        backend envL TVoid "launch_application" (launch_args app) = Resolved rL ->
        (forall a, In a apps -> id a = id app -> auto_start a <> Some true) ->
        (id app ∈ App.runningApps (state_of (App.handleLaunchApp envL app) st))
        /\ (id app ∉ App.runningApps
                       (state_of (App.loadRunningApps env)
                          (state_of (App.handleLaunchApp envL app) st))))
  /\ (forall rS : unit,
        backend envS TVoid "stop_application" (stop_args app) = Resolved rS ->
        (exists a, In a apps /\ id a = id app /\ auto_start a = Some true) ->
        (id app ∉ App.runningApps (state_of (App.handleStopApp envS app) st))
        /\ (id app ∈ App.runningApps
                       (state_of (App.loadRunningApps env)
                          (state_of (App.handleStopApp envS app) st)))).
Proof.
  intros Hb.
  assert (Hload : forall st0 x,
             x ∈ App.runningApps (state_of (App.loadRunningApps env) st0) <->
             exists a, In a apps /\ auto_start a = Some true /\ id a = x).
  { intros st0 x. unfold state_of.
    pose proof (loadRunningApps_run env st0) as Hrun. unfold run in Hrun.
    rewrite Hrun, Hb. cbn.
    rewrite elem_of_list_to_set, list_elem_of_In, in_map_iff. split.
    - intros (a & Hid & Hin). apply filter_In in Hin as [Hin Hflag].
      exists a. repeat split; try assumption.
      destruct (auto_start a) as [[|] |]; cbv in Hflag; congruence.
    - intros (a & Hin & Hflag & Hid). exists a. split; [assumption |].
      apply filter_In. split; [assumption |]. rewrite Hflag. reflexivity. }
  split; [| split].
  - intros st1 st2. apply set_eq. intros x. rewrite !Hload. reflexivity.
  - intros rL HL Hnone. rewrite (launch_state envL app st rL HL). split.
    + cbn. apply elem_of_union_r, elem_of_singleton. reflexivity.
    + rewrite Hload. intros (a & Hin & Hflag & Hid). exact (Hnone a Hin Hid Hflag).
  - intros rS HS (a & Hin & Hid & Hflag). rewrite (stop_state envS app st rS HS). split.
    + cbn. rewrite elem_of_difference, elem_of_singleton. tauto.
    + rewrite Hload. exists a. repeat split; assumption.
Qed.

Lemma reload_overrides_launch_and_stop_witness :
  ((id notepad ∈ App.runningApps (state_of (App.handleLaunchApp env_up notepad) app_idle))
   /\ (id notepad ∉ App.runningApps
                      (state_of (App.loadRunningApps env_up)
                         (state_of (App.handleLaunchApp env_up notepad) app_idle))))
  /\ ((id backup ∉ App.runningApps (state_of (App.handleStopApp env_up backup) app_idle))
      /\ (id backup ∈ App.runningApps
                        (state_of (App.loadRunningApps env_up)
                           (state_of (App.handleStopApp env_up backup) app_idle)))).
Proof.
  split.
  - destruct (reload_overrides_launch_and_stop env_up env_up env_up notepad app_idle
                [notepad; backup] eq_refl) as (_ & Hlaunch & _).
    apply (Hlaunch tt eq_refl).
    intros a [<- | [<- | []]] Hid; cbn in *; discriminate.
  - destruct (reload_overrides_launch_and_stop env_up env_up env_up backup app_idle
                [notepad; backup] eq_refl) as (_ & _ & Hstop).
    apply (Hstop tt eq_refl).
    exists backup. repeat split. right. left. reflexivity.
Defined.

(** ** App: hiding the window and closing the settings *)

(** X16: in all three versions of App, [hideWindow] makes exactly one backend
    call, [hide_window] without arguments, and leaves the component state
    unchanged whether the backend accepts or rejects it. *)
Theorem hideWindow_touches_nothing (env : Env) (st : App.State) (st1 : AppV1.State) :
  state_of (App.hideWindow env) st = st
  /\ calls (trace_of (App.hideWindow env) st) = [("hide_window", [])]
  /\ state_of (AppV1.hideWindow env) st1 = st1
  /\ calls (trace_of (AppV1.hideWindow env) st1) = [("hide_window", [])]
  /\ state_of (AppV0.hideWindow env) tt = tt
  /\ calls (trace_of (AppV0.hideWindow env) tt) = [("hide_window", [])].
Proof.
  unfold App.hideWindow, AppV1.hideWindow, AppV0.hideWindow.
  unfold state_of, trace_of. unfold_js.
  destruct (backend env TVoid "hide_window" []); cbn; repeat split.
Qed.

Lemma settings_close_run (env1 env2 : Env) (st : App.State) :
  run (App.handleSettingsClose env1 env2) st
  = (Normal tt,
     App.mkState false
       match backend env1 TApps "get_registered_apps" [] with
       | Resolved apps => apps
       | Rejected _ => App.registeredApps st
       end
       match backend env2 TApps "get_registered_apps" [] with
       | Resolved apps =>
           list_to_set
             (List.map id (List.filter (fun app => truthy_opt truthy_bool (auto_start app)) apps))
       | Rejected _ => App.runningApps st
       end,
     trace_of (App.loadRegisteredApps env1) st ++ trace_of (App.loadRunningApps env2) st).
Proof.
  unfold trace_of, App.handleSettingsClose, App.loadRegisteredApps, App.loadRunningApps,
    App.setShowSettings, App.setRegisteredApps, App.setRunningApps.
  unfold run. unfold_js. cbn.
  destruct (backend env1 TApps "get_registered_apps" []);
    destruct (backend env2 TApps "get_registered_apps" []); cbn;
    rewrite ?set_of_elements; reflexivity.
Qed.

(** X17: closing the settings panel hides it and refreshes both the list and
    the running set, each from its own call of [get_registered_apps].  The
    handler returns normally; the list becomes the first answer, or stays when
    that call fails; an id is in the running set afterwards exactly when the
    second answer lists a record with that id and a true [auto_start], and the
    set stays when that call fails; every failed call is reported.  The older
    App, without the running set, hides the panel and refreshes the list
    alike. *)
Theorem settings_close_refreshes (env1 env2 : Env) (st : App.State) (st1 : AppV1.State) :
  result_of (App.handleSettingsClose env1 env2) st = Normal tt
  /\ App.showSettings (state_of (App.handleSettingsClose env1 env2) st) = false
  /\ App.registeredApps (state_of (App.handleSettingsClose env1 env2) st)
     = match backend env1 TApps "get_registered_apps" [] with
       | Resolved apps => apps
       | Rejected _ => App.registeredApps st
       end
  /\ (forall apps, backend env2 TApps "get_registered_apps" [] = Resolved apps ->
        forall x : string,
          x ∈ App.runningApps (state_of (App.handleSettingsClose env1 env2) st) <->
          exists app, In app apps /\ auto_start app = Some true /\ id app = x)
  /\ (forall err, backend env2 TApps "get_registered_apps" [] = Rejected err ->
        App.runningApps (state_of (App.handleSettingsClose env1 env2) st) = App.runningApps st)
  /\ failures_reported (trace_of (App.handleSettingsClose env1 env2) st) = true
  /\ AppV1.showSettings (state_of (AppV1.handleSettingsClose env1) st1) = false
  /\ AppV1.registeredApps (state_of (AppV1.handleSettingsClose env1) st1)
     = match backend env1 TApps "get_registered_apps" [] with
       | Resolved apps => apps
       | Rejected _ => AppV1.registeredApps st1
       end
  /\ failures_reported (trace_of (AppV1.handleSettingsClose env1) st1) = true.
Proof.
  unfold result_of, state_of, trace_of.
  pose proof (settings_close_run env1 env2 st) as Hrun. unfold run in Hrun. rewrite Hrun.
  cbn [fst snd App.showSettings App.registeredApps App.runningApps].
  split; [reflexivity |]. split; [reflexivity |]. split; [reflexivity |].
  split; [| split; [| split]].
  - intros apps -> x.
    rewrite elem_of_list_to_set, list_elem_of_In, in_map_iff. split.
    + intros (a & Hid & Hin). apply filter_In in Hin as [Hin Hflag].
      exists a. repeat split; try assumption.
      destruct (auto_start a) as [[|] |]; cbv in Hflag; congruence.
    + intros (a & Hin & Hflag & Hid). exists a. split; [assumption |].
      apply filter_In. split; [assumption |]. rewrite Hflag. reflexivity.
  - intros err ->. reflexivity.
  - unfold trace_of.
    pose proof (app_load_run env1 st) as H1. pose proof (loadRunningApps_run env2 st) as H2.
    unfold run in H1, H2. rewrite H1, H2.
    destruct (backend env1 TApps "get_registered_apps" []);
      destruct (backend env2 TApps "get_registered_apps" []); cbn;
      rewrite ?String.eqb_refl; reflexivity.
  - unfold AppV1.handleSettingsClose, AppV1.loadRegisteredApps, AppV1.setShowSettings,
      AppV1.setRegisteredApps.
    unfold_js. cbn.
    destruct (backend env1 TApps "get_registered_apps" []); cbn;
      rewrite ?String.eqb_refl; repeat split.
Qed.

Lemma settings_close_refreshes_witness :
  ("app-2" ∈ App.runningApps (state_of (App.handleSettingsClose env_down env_up) app_manual) <->
   exists app, In app [notepad; backup] /\ auto_start app = Some true /\ id app = "app-2")
  /\ App.runningApps (state_of (App.handleSettingsClose env_up env_down) app_idle)
     = App.runningApps app_idle.
Proof.
  split.
  - destruct (settings_close_refreshes env_down env_up app_manual (AppV1.mkState true []))
      as (_ & _ & _ & H & _).
    apply (H [notepad; backup] eq_refl "app-2").
  - destruct (settings_close_refreshes env_up env_down app_idle (AppV1.mkState true []))
      as (_ & _ & _ & _ & H & _).
    apply (H "backend unavailable" eq_refl).
Defined.

(** ** Settings: the validation message *)

(** X18: a save refused for a missing name or path tells the user so and does
    nothing else: the handler returns normally and its only effect is the one
    alert "名前とパスは必須です"; nothing is logged. *)
Theorem handleSave_validation_alert (env : Env) (st : Settings.State) :
  Settings.fd_name (Settings.formData st) = "" \/ Settings.fd_path (Settings.formData st) = "" ->
  result_of (Settings.handleSave env) st = Normal tt
  /\ trace_of (Settings.handleSave env) st = [Alert "名前とパスは必須です"].
Proof.
  intros H.
  assert (Hrun : run (Settings.handleSave env) st
                 = (Normal tt, st, [Alert "名前とパスは必須です"])).
  { apply handleSave_blocked. destruct H as [H | H]; [left | right];
      now apply truthy_string_false. }
  unfold result_of, trace_of. unfold run in Hrun. rewrite Hrun. split; reflexivity.
Qed.

Lemma handleSave_validation_alert_witness :
  result_of (Settings.handleSave env_up) settings_no_name = Normal tt
  /\ trace_of (Settings.handleSave env_up) settings_no_name = [Alert "名前とパスは必須です"].
Proof.
  apply (handleSave_validation_alert env_up settings_no_name). left. reflexivity.
Defined.
